(** * The pacemaker resource-text parser of [plugins/module_utils/pacemaker_helper.py]

    A shallow embedding of [_count_indentation], [_add_ansibilized_section]
    and [ansibilize_resource], and the properties of the repository's
    specification that concern them; then of [_values_fmt] of the same file
    and of the functions of the two modules that were written to use it,
    [plugins/modules/pacemaker_cluster_resource.py] and
    [plugins/modules/pacemaker_cluster_resource_info.py], with what their
    code shows.

    Conventions of the embedding.
    - A Python [str] is a [string]; characters are code points 0..255.
    - A Python value is a [pyval]: a [str] or a [dict] with [str] keys
      (a [gmap string pyval]); an [int] appears only as a depth, a [nat].
    - A call either returns a value or raises an exception: the [res] monad.
      The exceptions are the built-in ones the three functions can raise.
    - A free name of a function body is looked up in the module namespace
      when the call runs, as Python does; the namespace is an explicit
      argument, and [module_globals] is the namespace of the file as it is.
    - Line 37 of the file lacks the closing brace of its outer dict display;
      the embedding reads the line with that brace in place,
      [{name: {'name': value, 'value': ...}}].
    - [assert] statements are executed (the interpreter runs without -O). *)

From Stdlib Require Import Ascii String List Arith Lia Bool.
From stdpp Require Import base option gmap strings list fin_maps pretty.

Local Open Scope string_scope.
Local Open Scope list_scope.

(** ** Values, exceptions and results *)

#[warnings="-register-all"]
Inductive pyval : Type :=
| VStr (s : string)
| VDict (d : gmap string pyval).

Inductive exn : Type :=
| IndexError
| NameError
| TypeError
| AssertionError
| ValueError
| RecursionError.

(** The class name of an exception, as [type(e).__name__] gives it. *)
Definition exn_name (e : exn) : string :=
  match e with
  | IndexError => "IndexError"
  | NameError => "NameError"
  | TypeError => "TypeError"
  | AssertionError => "AssertionError"
  | ValueError => "ValueError"
  | RecursionError => "RecursionError"
  end.

Inductive res (A : Type) : Type :=
| Return (a : A)
| Raise (e : exn).
Arguments Return {A} a.
Arguments Raise {A} e.

(** Sequencing: an exception raised on the left passes through. *)
#[global] Instance res_bind : MBind res := fun A B k m =>
  match m with
  | Return a => k a
  | Raise e => Raise e
  end.
#[global] Instance res_ret : MRet res := fun A a => Return a.

(** [r] is the raising of an exception whose class is called [cls]. *)
Definition raises_named {A : Type} (r : res A) (cls : string) : Prop :=
  exists e, r = Raise e /\ exn_name e = cls.

Definition is_raise {A : Type} (r : res A) : bool :=
  match r with
  | Return _ => false
  | Raise _ => true
  end.

(** The module namespace, as far as data goes: at its top level the file
    binds functions and imported modules only, and nothing under the name
    [s]. *)
Definition module_globals : gmap string pyval := ∅.

(** ** Strings *)

Module Str.

(** [' ' * n] *)
Fixpoint spaces (n : nat) : string :=
  match n with
  | O => ""
  | S k => String " " (spaces k)
  end.

(** [s.startswith(p)] *)
Fixpoint startswith (s p : string) : bool :=
  match p with
  | EmptyString => true
  | String c p' =>
      match s with
      | EmptyString => false
      | String d s' => Ascii.eqb c d && startswith s' p'
      end
  end.

(** [s.split(sep)] for a one-character separator: the pieces between the
    occurrences of [sep], of which there is always at least one. *)
Fixpoint split (sep : ascii) (s : string) : list string :=
  match s with
  | EmptyString => [""]
  | String c s' =>
      if Ascii.eqb c sep then "" :: split sep s'
      else
        match split sep s' with
        | [] => [String c ""]
        | p :: ps => String c p :: ps
        end
  end.

(** [sep in s] *)
Fixpoint contains (sep : ascii) (s : string) : bool :=
  match s with
  | EmptyString => false
  | String c s' => Ascii.eqb c sep || contains sep s'
  end.

(** The characters [\s] matches in a [str] pattern, among the code points
    0..255: TAB LF VT FF CR, FS GS RS US, space, NEL and NBSP. *)
Definition is_space (c : ascii) : bool :=
  let n := nat_of_ascii c in
  (((9 <=? n) && (n <=? 13)) || ((28 <=? n) && (n <=? 32))
   || (n =? 133) || (n =? 160))%nat.

(** The length of the longest run of whitespace that starts [s]. *)
Fixpoint leading_whitespace (s : string) : nat :=
  match s with
  | EmptyString => 0
  | String c s' => if is_space c then S (leading_whitespace s') else 0
  end.

(** [s.strip()] is not used by the module; [strip] serves to state what a
    trimmed value would be. *)
Fixpoint lstrip (s : string) : string :=
  match s with
  | EmptyString => ""
  | String c s' => if is_space c then lstrip s' else s
  end.

Fixpoint rev (s : string) : string :=
  match s with
  | EmptyString => ""
  | String c s' => rev s' +:+ String c ""
  end.

Definition strip (s : string) : string := rev (lstrip (rev (lstrip s))).

End Str.

(** ** The three functions *)

(** [re.search(r"^\s*", s)]: the pattern matches at position 0 of every
    string, the empty run included, so a match object always comes back;
    the model keeps its [end()]. *)
Definition re_search_leading_ws (s : string) : option nat :=
  Some (Str.leading_whitespace s).

(** [def _count_indentation(line)]: the body never reads [line]; it reads
    the name [s], which is neither a parameter nor a local, so Python looks
    it up in the module namespace when the call runs (no builtin is called
    [s]): unbound, the lookup raises [NameError]; bound to something that is
    not a string, [re.search] raises [TypeError]. *)
Definition _count_indentation (globals : gmap string pyval) (line : string)
  : res nat :=
  match globals !! "s" with
  | None => Raise NameError
  | Some (VStr s) =>
      let match_ := re_search_leading_ws s in
      match match_ with
      | None => Return 0
      | Some end_ => Return end_
      end
  | Some (VDict _) => Raise TypeError
  end.

(** [name, value = line.split(':')] *)
Definition unpack2 (parts : list string) : res (string * string) :=
  match parts with
  | [name; value] => Return (name, value)
  | _ => Raise ValueError
  end.

Definition split_name_value (line : string) : res (string * string) :=
  unpack2 (Str.split ":" line).

Definition py_assert (b : bool) : res unit :=
  if b then Return tt else Raise AssertionError.

(** The body of [_add_ansibilized_section], with the function the two
    recursive calls go to as the parameter [self]. *)
Definition section_body (globals : gmap string pyval)
    (self : list string -> nat -> res pyval)
    (resource_string_array : list string) (current_depth : nat) : res pyval :=
  match resource_string_array with
  | [] => Raise IndexError                      (* resource_string_array[0] *)
  | line :: remainder =>
      match remainder with
      | [] => Raise IndexError                  (* resource_string_array[1] *)
      | next_line :: _ =>
          next_depth ← _count_indentation globals next_line;
          _ ← py_assert (Str.startswith line (Str.spaces current_depth));
          '(name, value) ← split_name_value line;
          if (String.length value =? 0)%nat then
            nested ← self remainder next_depth;
            Return (VDict {[ name := nested ]})
          else
            nested ← self remainder next_depth;
            Return (VDict {[ name :=
                      VDict (<["value" := nested]> {[ "name" := VStr value ]}) ]})
      end
  end.

(** [_add_ansibilized_section]: every recursive call is on [remainder], the
    tail of the array, which is what the recursion is structural on. *)
Fixpoint _add_ansibilized_section (globals : gmap string pyval)
    (resource_string_array : list string) (current_depth : nat)
    {struct resource_string_array} : res pyval :=
  section_body globals (_add_ansibilized_section globals)
    resource_string_array current_depth.

(** [ansibilize_resource] *)
Definition ansibilize_resource (globals : gmap string pyval)
    (resource_string : string) : res pyval :=
  _add_ansibilized_section globals (Str.split "010" resource_string) 0.

(** The interpreter's stack is finite: with [limit] frames left, a call that
    needs one more raises [RecursionError]. *)
Fixpoint _add_ansibilized_section_limited (globals : gmap string pyval)
    (limit : nat) : list string -> nat -> res pyval :=
  match limit with
  | O => fun _ _ => Raise RecursionError
  | S frames =>
      section_body globals (_add_ansibilized_section_limited globals frames)
  end.

(** A namespace in which the name [s] is bound to the string [s0]. *)
Definition globals_with_s (s0 : string) : gmap string pyval :=
  {[ "s" := VStr s0 ]}.

(** The texts of the specification's examples. *)
Definition newline : string := String "010" "".
Definition two_level_text : string := "foo:" +:+ newline +:+ " bar:baz".

(** A stand-in for the recursive call that returns [v] whatever it gets. *)
Definition returning (v : pyval) : list string -> nat -> res pyval :=
  fun _ _ => Return v.

(** ** Vocabulary of the specification *)

(** The value portion of [line] is empty: [line] is [name:] . *)
Definition is_branch_line (line : string) : bool :=
  match Str.split ":" line with
  | [_; value] => (String.length value =? 0)%nat
  | _ => false
  end.

(** The last line of the text is a branch line. *)
Definition final_line_is_branch (text : string) : bool :=
  match last (Str.split "010" text) with
  | Some line => is_branch_line line
  | None => false
  end.

(** The split of the specification, in its words: on the first [:] only,
    the name is what stands before it and the value is the trimmed rest. *)
Fixpoint partition_first (sep : ascii) (s : string)
  : option (string * string) :=
  match s with
  | EmptyString => None
  | String c s' =>
      if Ascii.eqb c sep then Some ("", s')
      else
        match partition_first sep s' with
        | Some (before, after) => Some (String c before, after)
        | None => None
        end
  end.

Definition spec_split_line (line : string) : option (string * string) :=
  match partition_first ":" line with
  | Some (name, rest) => Some (name, Str.strip rest)
  | None => None
  end.

(** The classes of the exceptions a parse can end in: all of them are
    Python's own, the module defines no exception class. *)
Definition parser_exn_names : list string :=
  ["IndexError"; "NameError"; "TypeError"; "AssertionError"; "ValueError"].

(** The leaf shape of the specification: [{name: value}]. *)
Definition leaf_shape (name value : string) : pyval :=
  VDict {[ name := VStr value ]}.

(** The record shape: [{name: {"name": value, "value": nested}}]. *)
Definition record_shape (name value : string) (nested : pyval) : pyval :=
  VDict {[ name := VDict (<["value" := nested]> {[ "name" := VStr value ]}) ]}.

(** The two-level text of the specification: a branch line [name:] and
    under it, [indent] spaces deep, the leaf line [child:value]. *)
Definition two_level (name : string) (indent : nat) (child value : string)
  : string :=
  (name +:+ ":") +:+ String "010" (Str.spaces indent +:+ child
                                     +:+ String ":" value).



(** ** [_values_fmt]

    The function stands under the decorator [fmt.unpack_args] of the
    collection's [cmd_runner], which hands it the two lists of one argument
    pair as its two parameters; the model is the function as it is written,
    on its two parameters. The values are Python objects of any kind: the
    model takes their type [V] and what the two library calls of the body
    make of a value as parameters. The value types are strings. *)

Section ValuesFmtDef.

Variable V : Type.
(** ['{0}'.format(value)] *)
Variable format0 : V -> string.
(** [boolean(value)] of [ansible.module_utils.parsing.convert_bool], which
    returns a [bool] or raises. *)
Variable boolean : V -> res bool.

(** One turn of the loop: the four words that [result.extend] receives. *)
Definition values_fmt_step (value : V) (value_type : string)
  : res (list string) :=
  if String.eqb value_type "bool" then
    b ← boolean value;
    let value' := if b : bool then "true" else "false" in
    Return ["--type"; value_type; "--set"; value']
  else
    Return ["--type"; value_type; "--set"; format0 value].

(** [for value, value_type in zip(values, value_types): ...] *)
Fixpoint values_fmt_loop (pairs : list (V * string)) (result : list string)
  : res (list string) :=
  match pairs with
  | [] => Return result
  | (value, value_type) :: pairs' =>
      words ← values_fmt_step value value_type;
      values_fmt_loop pairs' (result ++ words)
  end.

Definition _values_fmt (values : list V) (value_types : list string)
  : res (list string) :=
  values_fmt_loop (zip values value_types) [].

End ValuesFmtDef.

Arguments values_fmt_step {V} format0 boolean value value_type.
Arguments values_fmt_loop {V} format0 boolean pairs result.
Arguments _values_fmt {V} format0 boolean values value_types.

(** A conversion to try [_values_fmt] with, on strings: it knows "yes" and
    "no" and raises on the rest. *)
Definition sample_boolean (value : string) : res bool :=
  if String.eqb value "yes" then Return true
  else if String.eqb value "no" then Return false
  else Raise TypeError.

(** ** The modules [pacemaker_cluster_resource] and
    [pacemaker_cluster_resource_info]

    Conventions, beyond those of the parser.
    - The values are [jval]: [None], [bool], [int], [str], tuples, lists and
      dicts with [str] keys.
    - [AnsibleModule] is the framework's: the model starts where [main] has
      its module object, and takes [module.params] as a dict. A call of
      [module.exit_json] or [module.fail_json] ends the program; the model
      keeps which of the two it was and the keyword arguments. [fail_json]
      has the required parameter [msg], so a call without it raises
      [TypeError].
    - [module.run_command] is the framework's too: what it answers, an exit
      code with the two output texts or the end of the program, is a
      parameter of the model and may depend on the commands run before. The
      state a call works on is the list of the commands run so far, each
      as it was handed to [run_command].
    - Lines 120 and 152 of [pacemaker_cluster_resource.py] close the
      subscript [resource['resource_options'] with a parenthesis; the model
      reads them with the bracket. Line 11 of the other file imports from a
      module that does not exist; the functions are modelled as written. *)

Module Pcs.

#[warnings="-register-all"]
Inductive jval : Type :=
| JNone
| JBool (b : bool)
| JInt (n : Z)
| JStr (s : string)
| JTuple (items : list jval)
| JList (items : list jval)
| JDict (d : gmap string jval).

Inductive pyexc : Type :=
| KeyError (key : string)
| NameError (name : string)
| TypeError.

(** The ways a program ends. *)
Inductive stop : Type :=
| ExitJson (kwargs : gmap string jval)
| FailJson (kwargs : gmap string jval)
| Uncaught (e : pyexc).

Inductive reply (A : Type) : Type :=
| Ret (a : A)
| Stop (s : stop).
Arguments Ret {A} a.
Arguments Stop {A} s.

(** A computation reads and extends the list of the commands run. *)
Definition M (A : Type) : Type := list jval -> reply A * list jval.

#[global] Instance M_ret : MRet M := fun A a ran => (Ret a, ran).
#[global] Instance M_bind : MBind M := fun A B k m ran =>
  match m ran with
  | (Ret a, ran') => k a ran'
  | (Stop s, ran') => (Stop s, ran')
  end.

Definition raise {A : Type} (e : pyexc) : M A :=
  fun ran => (Stop (Uncaught e), ran).

(** [module.exit_json], called with the items of [kwargs] as keyword
    arguments. *)
Definition exit_json {A : Type} (kwargs : gmap string jval) : M A :=
  fun ran => (Stop (ExitJson kwargs), ran).

(** [module.fail_json], called with the items of [kwargs] as keyword
    arguments: the method is [fail_json(self, msg, **kwargs)], so a call
    without the keyword [msg] raises [TypeError] before the method runs. *)
Definition fail_json {A : Type} (kwargs : gmap string jval) : M A :=
  fun ran =>
    match kwargs !! "msg" with
    | Some _ => (Stop (FailJson kwargs), ran)
    | None => (Stop (Uncaught TypeError), ran)
    end.

(** [d[key]] on a dict of the program, such as [module.params]. *)
Definition dict_getitem (d : gmap string jval) (key : string) : M jval :=
  match d !! key with
  | Some v => mret v
  | None => raise (KeyError key)
  end.

(** [v[key]] for a [str] key: only a dict has such items. *)
Definition getitem (v : jval) (key : string) : M jval :=
  match v with
  | JDict d => dict_getitem d key
  | _ => raise TypeError
  end.

(** [v == None], [v == text], [v != ''] and the truth value of [v]. *)
Definition is_none (v : jval) : bool :=
  match v with
  | JNone => true
  | _ => false
  end.

Definition str_eqb (v : jval) (text : string) : bool :=
  match v with
  | JStr s => String.eqb s text
  | _ => false
  end.

Definition truthy (v : jval) : bool :=
  match v with
  | JNone => false
  | JBool b => b
  | JInt n => negb (n =? 0)%Z
  | JStr s => negb (String.eqb s "")
  | JTuple items | JList items => negb (Nat.eqb (length items) 0)
  | JDict d => negb (Nat.eqb (size d) 0)
  end.

(** The keyword arguments that the items of [v] make: [v] has to be a
    dict. *)
Definition kwargs_of (v : jval) : M (gmap string jval) :=
  match v with
  | JDict d => mret d
  | _ => raise TypeError
  end.

Section Functions.

(** [repr] of a tuple, a list or a dict, which is what [str] gives for
    them. *)
Variable py_repr : jval -> string.

(** What [module.run_command(cmd)] answers after the commands [ran]. *)
Variable run_command : list jval -> jval -> reply (Z * string * string).

(** The binding of the name [resources] at module level, if there is one. *)
Variable global_resources : option jval.

(** [str(v)] *)
Definition py_str (v : jval) : string :=
  match v with
  | JNone => "None"
  | JBool true => "True"
  | JBool false => "False"
  | JInt n => pretty n
  | JStr s => s
  | JTuple _ | JList _ | JDict _ => py_repr v
  end.

(** [prefix + "%s" % arg]: a tuple on the right is the tuple of the
    arguments and has to have one item. *)
Definition percent_s (prefix : string) (arg : jval) : M string :=
  match arg with
  | JTuple [item] => mret (prefix +:+ py_str item)
  | JTuple _ => raise TypeError
  | _ => mret (prefix +:+ py_str arg)
  end.

Definition module_run_command (cmd : jval) : M (Z * string * string) :=
  fun ran => (run_command ran cmd, ran ++ [cmd]).

(** [get_resource], the same text in both files. *)
Definition get_resource (resource : jval) : M jval :=
  cmd ← percent_s "pcs resource config " resource;
  '(rc, out, err) ← module_run_command (JStr cmd);
  if (rc =? 1)%Z then
    mret (JDict {[ "resource" := JNone; "msg" := JStr out;
                   "failed" := JBool true ]})
  else
    mret (JDict {[ "resource" := resource; "msg" := JStr out;
                   "failed" := JBool false ]}).

(** [cmd = fmt, (cmd, arg)]: the right-hand side is a tuple of the format
    and the tuple of its arguments; there is no [%] that applies the one to
    the other. *)
Definition paired (fmt : string) (cmd arg : jval) : jval :=
  JTuple [JStr fmt; JTuple [cmd; arg]].

(** [if resource[key] != '': cmd = fmt, (cmd, resource[key])] *)
Definition add_unless_empty (resource : jval) (key fmt : string) (cmd : jval)
  : M jval :=
  v ← getitem resource key;
  if str_eqb v "" then mret cmd
  else arg ← getitem resource key; mret (paired fmt cmd arg).

(** [if resource[key]: cmd = "%s %s", (cmd, flag)] *)
Definition add_if_true (resource : jval) (key flag : string) (cmd : jval)
  : M jval :=
  v ← getitem resource key;
  if truthy v then mret (paired "%s %s" cmd (JStr flag)) else mret cmd.

(** [update_resource] and [create_resource] have the same text but for the
    word after [pcs resource]; [verb] is that word. *)
Definition change_resource (verb : string) (name resource : jval) : M jval :=
  standard ← getitem resource "standard";
  provider ← getitem resource "provider";
  type ← getitem resource "type";
  let cmd := JStr ("pcs resource " +:+ verb +:+ " " +:+ py_str name +:+ " "
                   +:+ py_str standard +:+ ":" +:+ py_str provider +:+ ":"
                   +:+ py_str type) in
  options ← getitem resource "resource_options";
  let cmd := paired "%s %s" cmd options in
  cmd ← add_unless_empty resource "operations" "%s op %s" cmd;
  cmd ← add_unless_empty resource "meta" "%s meta %s" cmd;
  cmd ← add_unless_empty resource "clone" "%s clone %s" cmd;
  cmd ← add_unless_empty resource "promotable" "%s promotable %s" cmd;
  cmd ← add_unless_empty resource "group" "%s group %s" cmd;
  cmd ← add_if_true resource "disabled" "--disabled" cmd;
  cmd ← add_if_true resource "agent_validation" "--agent-validation" cmd;
  '(rc, out, err) ← module_run_command cmd;
  if negb (rc =? 0)%Z then
    fail_json {[ "failed" := JBool true; "changed" := JBool false;
                 "output" := JStr out; "error" := JStr err ]}
  else
    rsrc ← get_resource name;
    mret (JDict {[ "changed" := JBool true; "failed" := JBool false;
                   "resource" := rsrc ]}).

(** The end of the two functions, from the call of [run_command] on, for
    the command [cmd] they have put together: a way to speak of that part
    alone. *)
Definition change_resource_tail (name cmd : jval) : M jval :=
  '(rc, out, err) ← module_run_command cmd;
  if negb (rc =? 0)%Z then
    fail_json {[ "failed" := JBool true; "changed" := JBool false;
                 "output" := JStr out; "error" := JStr err ]}
  else
    rsrc ← get_resource name;
    mret (JDict {[ "changed" := JBool true; "failed" := JBool false;
                   "resource" := rsrc ]}).

Definition update_resource (name resource : jval) : M jval :=
  change_resource "update" name resource.

Definition create_resource (name resource : jval) : M jval :=
  change_resource "create" name resource.

(** The name [resources] in [main]: it is no local, so it is looked up at
    module level. *)
Definition name_resources : M jval :=
  match global_resources with
  | Some v => mret v
  | None => raise (NameError "resources")
  end.

(** [result = dict(changed=False, msg='')] *)
Definition initial_result : gmap string jval :=
  {[ "changed" := JBool false; "msg" := JStr "" ]}.

(** [main] of [pacemaker_cluster_resource], from the line after the module
    object is made. *)
Definition main (params : gmap string jval) : M unit :=
  let result := initial_result in
  name ← dict_getitem params "name";
  state ← dict_getitem params "state";
  node ← dict_getitem params "node";
  force ← dict_getitem params "force";
  timeout ← dict_getitem params "timeout";
  resource ← dict_getitem params "resource_options";
  _ ← (if str_eqb state "present" then
         if is_none name then
           fail_json (<["msg" := JStr "Must specify a resource name"]> result)
         else
           rsrc ← get_resource name;
           msg ← getitem rsrc "msg";
           if negb (str_eqb msg "") then
             msg ← getitem rsrc "msg";
             exit_json (<["resource" := msg]> result)
           else
             resources ← name_resources;
             result ← create_resource name resources;
             kwargs ← kwargs_of result;
             exit_json kwargs
       else mret tt);
  _ ← (if str_eqb state "updated" then
         if is_none name then
           fail_json (<["msg" := JStr "Must specify a resource name"]> result)
         else
           rsrc ← get_resource name;
           msg ← getitem rsrc "msg";
           if str_eqb msg "" then
             error ← getitem rsrc "Resource does not exist to update.";
             fail_json (<["error" := error]> result)
           else
             resources ← name_resources;
             result ← update_resource name resources;
             kwargs ← kwargs_of result;
             exit_json kwargs
       else mret tt);
  if str_eqb state "absent" then
    if is_none name then
      fail_json (<["msg" := JStr "Must specify a resource name"]> result)
    else
      rsrc ← get_resource name;
      msg ← getitem rsrc "msg";
      if str_eqb msg "" then
        exit_json (<["changed" := JBool false]> result)
      else
        cmd ← percent_s "pcs resource delete " name;
        '(rc, out, err) ← module_run_command (JStr cmd);
        if negb (rc =? 0)%Z then
          fail_json (<["error" := JStr err]> (<["output" := JStr out]> result))
        else
          exit_json (<["changed" := JBool true]> result)
  else mret tt.

(** [main] of [pacemaker_cluster_resource_info]. *)
Definition info_main (params : gmap string jval) : M unit :=
  let result := initial_result in
  name ← dict_getitem params "name";
  data ← get_resource name;
  exit_json (<["data" := data]> result).

End Functions.

(** The formats and arguments a command was paired with, the last one
    first, and the command the pairing started from. *)
Fixpoint levels (cmd : jval) : list (string * jval) :=
  match cmd with
  | JTuple [JStr fmt; JTuple [inner; arg]] => (fmt, arg) :: levels inner
  | _ => []
  end.

Fixpoint innermost (cmd : jval) : jval :=
  match cmd with
  | JTuple [JStr fmt; JTuple [inner; arg]] => innermost inner
  | _ => cmd
  end.

(** [cmd] is a string that starts with [pcs resource config ] or with
    [pcs resource delete ]. *)
Definition is_config_or_delete (cmd : jval) : bool :=
  match cmd with
  | JStr s =>
      String.prefix "pcs resource config " s
      || String.prefix "pcs resource delete " s
  | _ => false
  end.

(** The keys [update_resource] and [create_resource] read, in the order of
    the first reading. *)
Definition resource_keys : list string :=
  ["standard"; "provider"; "type"; "resource_options"; "operations"; "meta";
   "clone"; "promotable"; "group"; "disabled"; "agent_validation"].

(** The five options that are added unless they are the empty string, with
    their formats. *)
Definition optional_formats : list (string * string) :=
  [("operations", "%s op %s"); ("meta", "%s meta %s");
   ("clone", "%s clone %s"); ("promotable", "%s promotable %s");
   ("group", "%s group %s")].

(** Samples to try the functions with: a [run_command] that answers every
    command with the exit code [rc] and the two texts, and a [repr]. *)
Definition answering (rc : Z) (out err : string)
  : list jval -> jval -> reply (Z * string * string) :=
  fun _ _ => Ret (rc, out, err).

Definition sample_repr : jval -> string := fun _ => "<object>".

(** Parameters as the argument spec of [pacemaker_cluster_resource] gives
    them: its six options, and no other key. *)
Definition sample_params (name state : jval) : gmap string jval :=
  {[ "name" := name; "node" := JNone; "state" := state;
     "timeout" := JInt 300; "force" := JBool true; "resources" := JNone ]}.

(** The items of a resource with every key, of which [operations] was not
    given. *)
Definition sample_resource : gmap string jval :=
  {[ "standard" := JStr "ocf"; "provider" := JStr "heartbeat";
     "type" := JStr "IPaddr2"; "resource_options" := JStr "ip=10.0.0.1";
     "operations" := JNone; "meta" := JStr ""; "clone" := JStr "";
     "promotable" := JStr ""; "group" := JStr "web";
     "disabled" := JBool false; "agent_validation" := JBool true ]}.

End Pcs.

(** ** Splitting *)

Section Split.

Variable sep : ascii.

Lemma split_not_nil (s : string) : Str.split sep s <> [].
Proof.
  destruct s as [|c s]; simpl; [discriminate|].
  destruct (Ascii.eqb c sep); [discriminate|].
  destruct (Str.split sep s); discriminate.
Qed.

Lemma split_without_sep (s : string) :
  Str.contains sep s = false -> Str.split sep s = [s].
Proof.
  induction s as [|c s IH]; simpl; [reflexivity|].
  destruct (Ascii.eqb c sep); simpl; [discriminate|].
  intros H. rewrite (IH H). reflexivity.
Qed.

Lemma split_with_sep (s : string) :
  Str.contains sep s = true ->
  exists p q ps, Str.split sep s = p :: q :: ps.
Proof.
  induction s as [|c s IH]; simpl; [discriminate|].
  destruct (Ascii.eqb c sep); simpl.
  - intros _. destruct (Str.split sep s) as [|q ps] eqn:E.
    + exfalso. exact (split_not_nil s E).
    + eauto.
  - intros H. destruct (IH H) as (p & q & ps & ->). eauto.
Qed.

Lemma split_single (s v : string) :
  Str.split sep s = [v] -> s = v /\ Str.contains sep s = false.
Proof.
  destruct (Str.contains sep s) eqn:E.
  - destruct (split_with_sep s E) as (p & q & ps & ->). discriminate.
  - rewrite (split_without_sep s E). intros [= ->]. auto.
Qed.

Lemma split_pair (s name value : string) :
  Str.split sep s = [name; value] <->
  s = name +:+ String sep value
  /\ Str.contains sep name = false /\ Str.contains sep value = false.
Proof.
  split.
  - revert name. induction s as [|c s IH]; intros name; simpl.
    + discriminate.
    + destruct (Ascii.eqb_spec c sep) as [->|Hc].
      * intros [= <- H]. apply split_single in H as [-> H].
        simpl. auto.
      * destruct (Str.split sep s) as [|p ps] eqn:E; [discriminate|].
        intros [= <- ->]. destruct (IH p eq_refl) as (-> & Hn & Hv).
        simpl. apply Ascii.eqb_neq in Hc. rewrite Hc. auto.
  - intros (-> & Hn & Hv). induction name as [|c name IH]; simpl in *.
    + rewrite Ascii.eqb_refl, (split_without_sep value Hv). reflexivity.
    + apply orb_false_iff in Hn as [Hc Hn]. rewrite Hc, (IH Hn).
      reflexivity.
Qed.

End Split.

(** ** The recursion *)

Section Recursion.

Variable globals : gmap string pyval.

Lemma add_section_unfold (arr : list string) (depth : nat) :
  _add_ansibilized_section globals arr depth =
  section_body globals (_add_ansibilized_section globals) arr depth.
Proof. destruct arr; reflexivity. Qed.

(** The body reaches [self] on the tail of its array and nowhere else. *)
Lemma section_body_tail_only (self1 self2 : list string -> nat -> res pyval)
    (line : string) (remainder : list string) (depth : nat) :
  (forall d, self1 remainder d = self2 remainder d) ->
  section_body globals self1 (line :: remainder) depth =
  section_body globals self2 (line :: remainder) depth.
Proof.
  intros Hself. unfold section_body.
  destruct remainder as [|next_line rest]; [reflexivity|].
  destruct (_count_indentation globals next_line) as [nd|e]; simpl;
    [|reflexivity].
  destruct (py_assert _) as [[]|e]; simpl; [|reflexivity].
  destruct (split_name_value line) as [[name value]|e]; simpl;
    [|reflexivity].
  rewrite Hself. reflexivity.
Qed.

(** A body whose recursive call raises, raises. *)
Lemma section_body_raises (self : list string -> nat -> res pyval)
    (arr : list string) (depth : nat) :
  (forall d, is_raise (self (tail arr) d) = true) ->
  is_raise (section_body globals self arr depth) = true.
Proof.
  intros Hself. unfold section_body.
  destruct arr as [|line [|next_line rest]]; [reflexivity..|].
  destruct (_count_indentation globals next_line) as [nd|e]; simpl;
    [|reflexivity].
  destruct (py_assert _) as [[]|e]; simpl; [|reflexivity].
  destruct (split_name_value line) as [[name value]|e]; simpl;
    [|reflexivity].
  specialize (Hself nd). simpl in Hself.
  destruct (String.length value =? 0)%nat;
    destruct (self (next_line :: rest) nd); simpl in *; congruence.
Qed.

Lemma add_section_raises (arr : list string) (depth : nat) :
  is_raise (_add_ansibilized_section globals arr depth) = true.
Proof.
  revert depth. induction arr as [|line remainder IH]; intros depth.
  - reflexivity.
  - rewrite add_section_unfold. apply section_body_raises. exact IH.
Qed.

Lemma is_raise_exists {A : Type} (r : res A) :
  is_raise r = true -> exists e, r = Raise e.
Proof. destruct r; [discriminate|eauto]. Qed.

(** The exceptions of the body are those of [self] and four built-in ones. *)
Lemma section_body_exn (self : list string -> nat -> res pyval)
    (arr : list string) (depth : nat) (e : exn) :
  section_body globals self arr depth = Raise e ->
  e = IndexError \/ e = NameError \/ e = TypeError \/ e = AssertionError
  \/ e = ValueError \/ exists d, self (tail arr) d = Raise e.
Proof.
  unfold section_body.
  destruct arr as [|line [|next_line rest]]; [intros [= <-]; auto..|].
  unfold _count_indentation, re_search_leading_ws.
  destruct (globals !! "s") as [[s0|dm]|]; simpl;
    [|intros [= <-]; auto..].
  unfold py_assert. destruct (Str.startswith _ _); simpl;
    [|intros [= <-]; auto 10].
  unfold split_name_value, unpack2.
  destruct (Str.split ":" line) as [|name [|value [|x xs]]]; simpl;
    try (intros [= <-]; solve [auto 10]).
  destruct (String.length value =? 0)%nat;
    destruct (self (next_line :: rest) _) eqn:E; simpl;
    intros [= <-]; eauto 10.
Qed.

Lemma add_section_no_recursion_error (arr : list string) (depth : nat) :
  _add_ansibilized_section globals arr depth <> Raise RecursionError.
Proof.
  revert depth. induction arr as [|line remainder IH]; intros depth H.
  - discriminate.
  - rewrite add_section_unfold in H. apply section_body_exn in H.
    destruct H as [H|[H|[H|[H|[H|[d H]]]]]]; try discriminate.
    exact (IH d H).
Qed.

Lemma add_section_limited_enough (limit : nat) :
  forall (arr : list string) (depth : nat),
    (Nat.max 1 (length arr) <= limit)%nat ->
    _add_ansibilized_section_limited globals limit arr depth =
    _add_ansibilized_section globals arr depth.
Proof.
  induction limit as [|frames IH]; intros arr depth Hle; [lia|].
  rewrite add_section_unfold. simpl.
  destruct arr as [|line remainder]; [reflexivity|].
  destruct remainder as [|next_line rest] eqn:E; [reflexivity|].
  apply section_body_tail_only. intros d. apply IH. simpl in *. lia.
Qed.

End Recursion.

(** ** The top-level call *)

Lemma add_section_exn_names (globals : gmap string pyval)
    (arr : list string) (depth : nat) (e : exn) :
  _add_ansibilized_section globals arr depth = Raise e ->
  In (exn_name e) parser_exn_names.
Proof.
  revert depth. induction arr as [|line remainder IH]; intros depth H.
  - injection H as <-. simpl. auto.
  - rewrite add_section_unfold in H. apply section_body_exn in H.
    destruct H as [->|[->|[->|[->|[->|[d H]]]]]]; simpl; auto 10.
    exact (IH d H).
Qed.

Lemma ansibilize_resource_one_line (globals : gmap string pyval)
    (text : string) :
  Str.contains "010" text = false ->
  ansibilize_resource globals text = Raise IndexError.
Proof.
  intros H. unfold ansibilize_resource.
  rewrite (split_without_sep _ _ H). reflexivity.
Qed.

Lemma ansibilize_resource_more_lines (text : string) :
  Str.contains "010" text = true ->
  ansibilize_resource module_globals text = Raise NameError.
Proof.
  intros H. unfold ansibilize_resource.
  destruct (split_with_sep _ _ H) as (p & q & ps & ->). reflexivity.
Qed.

Lemma ansibilize_resource_shipped (text : string) :
  ansibilize_resource module_globals text =
  Raise (if Str.contains "010" text then NameError else IndexError).
Proof.
  destruct (Str.contains "010" text) eqn:E.
  - apply ansibilize_resource_more_lines, E.
  - apply ansibilize_resource_one_line, E.
Qed.

(** ** The claims *)

Lemma contains_app (sep : ascii) (a b : string) :
  Str.contains sep (a +:+ b) = Str.contains sep a || Str.contains sep b.
Proof.
  induction a as [|c a IH]; simpl; [reflexivity|].
  rewrite IH, orb_assoc. reflexivity.
Qed.

(** The module as it is, and every namespace that does not bind [s]: with a
    second line in the array, the call ends in the [NameError] of the
    indentation helper, before the first line is looked at. *)
Lemma add_section_unbound_s (globals : gmap string pyval)
    (line next_line : string) (rest : list string) (depth : nat) :
  globals !! "s" = None ->
  _add_ansibilized_section globals (line :: next_line :: rest) depth
  = Raise NameError.
Proof.
  intros H. rewrite add_section_unfold. unfold section_body.
  unfold _count_indentation. rewrite H. reflexivity.
Qed.

(** C1. The specification has a one-line leaf text [name:value] parse to
    [{name: value}]. The code does not: the array of lines has one element,
    the read of [resource_string_array[1]] raises [IndexError] before the
    line is looked at, and no mapping comes back; so for ["foo:bar"] in the
    module as it is, and under every namespace. *)
Theorem one_line_text_raises_IndexError :
  forall (globals : gmap string pyval) (name value : string),
    Str.contains "010" name = false ->
    Str.contains "010" value = false ->
    ansibilize_resource globals (name +:+ String ":" value) = Raise IndexError
    /\ ansibilize_resource globals (name +:+ String ":" value)
       <> Return (leaf_shape name value).
Proof.
  intros globals name value Hname Hvalue.
  assert (H : ansibilize_resource globals (name +:+ String ":" value)
              = Raise IndexError).
  { apply ansibilize_resource_one_line.
    rewrite contains_app, Hname. simpl. exact Hvalue. }
  rewrite H. split; [reflexivity|discriminate].
Qed.

Lemma one_line_text_raises_IndexError_witness :
  Str.contains "010" "foo" = false
  /\ Str.contains "010" "bar" = false
  /\ ansibilize_resource module_globals "foo:bar" = Raise IndexError
  /\ ansibilize_resource module_globals "foo:bar"
     <> Return (leaf_shape "foo" "bar").
Proof.
  split; [reflexivity|]. split; [reflexivity|].
  apply (one_line_text_raises_IndexError module_globals "foo" "bar");
    reflexivity.
Defined.

(** C2. The specification has the two-level text, a branch line and a
    deeper leaf line under it, parse to the record shape. The code does not:
    in the module as it is the text has two lines, the indentation helper is
    called on the second and raises [NameError] for its unbound name [s],
    whatever the names, the value and the depth of the leaf line are. *)
Theorem two_level_text_raises_NameError :
  forall (name child value : string) (indent : nat),
    ansibilize_resource module_globals (two_level name indent child value)
    = Raise NameError
    /\ ansibilize_resource module_globals (two_level name indent child value)
       <> Return (record_shape name "" (leaf_shape child value))
    /\ two_level "foo" 1 "bar" "baz" = two_level_text.
Proof.
  intros name child value indent.
  assert (H : ansibilize_resource module_globals
                (two_level name indent child value) = Raise NameError).
  { apply ansibilize_resource_more_lines. unfold two_level.
    rewrite contains_app. simpl. apply orb_true_r. }
  rewrite H. split; [reflexivity|]. split; [discriminate|reflexivity].
Qed.

(** C3. [ansibilize_resource] never returns a value: under every namespace
    and for every text the call ends in an exception, and so does every call
    of [_add_ansibilized_section]; an array of fewer than two lines raises
    [IndexError] at once, whatever the lines are. *)
Theorem ansibilize_resource_never_returns :
  forall globals : gmap string pyval,
    (forall text : string, exists e, ansibilize_resource globals text = Raise e)
    /\ (forall (arr : list string) (depth : nat),
           exists e, _add_ansibilized_section globals arr depth = Raise e)
    /\ (forall depth : nat,
           _add_ansibilized_section globals [] depth = Raise IndexError)
    /\ (forall (line : string) (depth : nat),
           _add_ansibilized_section globals [line] depth = Raise IndexError).
Proof.
  intros globals. repeat split.
  - intros text. apply is_raise_exists, add_section_raises.
  - intros arr depth. apply is_raise_exists, add_section_raises.
Qed.

(** C4. [_count_indentation] is not a function of its parameter: it reads the
    module-level name [s]. In the module as it is, where [s] is unbound, every
    call raises [NameError]; under any namespace two different lines get the
    same answer; and where [s] is bound the answer is the leading-whitespace
    width of [s], not of the line. *)
Theorem count_indentation_reads_s_not_line :
  (forall line : string,
      _count_indentation module_globals line = Raise NameError)
  /\ (forall (globals : gmap string pyval) (line1 line2 : string),
         _count_indentation globals line1 = _count_indentation globals line2)
  /\ (forall s0 line : string,
         _count_indentation (globals_with_s s0) line =
         Return (Str.leading_whitespace s0))
  /\ _count_indentation module_globals "  bar:baz" <> Return 2.
Proof.
  repeat split; discriminate.
Qed.

(** C7. A text whose last line is a branch line makes the parse fail, but
    with one of Python's own exceptions, none of which is called
    IncompleteSectionError; for a text of one line, such as ["foo:"], the
    exception is [IndexError]. *)
Theorem final_branch_line_raises_builtin :
  forall (globals : gmap string pyval) (text : string),
    final_line_is_branch text = true ->
    exists e,
      ansibilize_resource globals text = Raise e
      /\ In (exn_name e) parser_exn_names
      /\ exn_name e <> "IncompleteSectionError"
      /\ (Str.contains "010" text = false -> e = IndexError).
Proof.
  intros globals text _.
  destruct (is_raise_exists _ (add_section_raises globals
              (Str.split "010" text) 0)) as [e He].
  exists e. fold (ansibilize_resource globals text) in He.
  pose proof (add_section_exn_names _ _ _ _ He) as Hin.
  repeat split; [exact He | exact Hin | |].
  - intros Hname. rewrite Hname in Hin. simpl in Hin.
    repeat (destruct Hin as [Hin|Hin]; [discriminate|]). exact Hin.
  - intros Hone. rewrite (ansibilize_resource_one_line _ _ Hone) in He.
    congruence.
Qed.

Lemma final_branch_line_raises_builtin_witness :
  final_line_is_branch "foo:" = true
  /\ exists e,
      ansibilize_resource module_globals "foo:" = Raise e
      /\ In (exn_name e) parser_exn_names
      /\ exn_name e <> "IncompleteSectionError"
      /\ (Str.contains "010" "foo:" = false -> e = IndexError).
Proof.
  split; [reflexivity|].
  apply (final_branch_line_raises_builtin module_globals "foo:").
  reflexivity.
Defined.

(** C7, as the specification states it, fails on ["foo:"]: the exception
    raised is [IndexError]. *)
Lemma incomplete_section_error_not_raised :
  ansibilize_resource module_globals "foo:" = Raise IndexError
  /\ ~ raises_named (ansibilize_resource module_globals "foo:")
         "IncompleteSectionError".
Proof.
  split; [reflexivity|].
  intros (e & He & Hname). injection He as <-. discriminate.
Qed.

(** ** The depth check *)





(** ** The split of a line *)

Lemma partition_first_app (sep : ascii) (name value : string) :
  Str.contains sep name = false ->
  partition_first sep (name +:+ String sep value) = Some (name, value).
Proof.
  induction name as [|c name IH]; simpl.
  - intros _. rewrite Ascii.eqb_refl. reflexivity.
  - intros H. apply orb_false_iff in H as [Hc H]. rewrite Hc, (IH H).
    reflexivity.
Qed.

Lemma split_name_value_cases (line : string) :
  split_name_value line = Raise ValueError
  \/ exists name value, split_name_value line = Return (name, value).
Proof.
  unfold split_name_value, unpack2.
  destruct (Str.split ":" line) as [|name [|value [|x xs]]]; eauto.
Qed.

(** C5. The code splits the line on every [:] and unpacks the pieces into
    two names: it returns a name and a value exactly when the line has one
    colon, the name being the text before it and the value the text after
    it, untrimmed; a line with no colon or with more than one raises
    [ValueError]. Where it returns, the name is the one the specification's
    split on the first colon gives, and the value is that split's value
    before trimming. *)
Theorem split_name_value_one_colon :
  forall line : string,
    (forall name value : string,
        split_name_value line = Return (name, value) <->
        line = name +:+ String ":" value
        /\ Str.contains ":" name = false /\ Str.contains ":" value = false)
    /\ (split_name_value line = Raise ValueError
        \/ exists name value,
            split_name_value line = Return (name, value)
            /\ spec_split_line line = Some (name, Str.strip value)).
Proof.
  intros line.
  assert (Hiff : forall name value : string,
             split_name_value line = Return (name, value) <->
             line = name +:+ String ":" value
             /\ Str.contains ":" name = false
             /\ Str.contains ":" value = false).
  { intros name value. rewrite <- split_pair.
    unfold split_name_value, unpack2.
    destruct (Str.split ":" line) as [|n [|v [|x xs]]];
      split; intros H; try discriminate; congruence. }
  split; [exact Hiff|].
  destruct (split_name_value_cases line) as [H|(name & value & H)];
    [left; exact H|].
  right. exists name, value. split; [exact H|].
  apply Hiff in H as (-> & Hn & _). unfold spec_split_line.
  rewrite (partition_first_app _ _ _ Hn). reflexivity.
Qed.

(** C5, as the specification states it, fails on ["time:12:30"]: the
    specification's split gives the name "time" and the value "12:30", the
    code raises [ValueError], in the split and in the parse step; and the
    value of ["a: b"] keeps its leading space. *)
Lemma second_colon_raises_ValueError :
  spec_split_line "time:12:30" = Some ("time", "12:30")
  /\ split_name_value "time:12:30" = Raise ValueError
  /\ section_body (globals_with_s "") (returning (VStr "t"))
       ["time:12:30"; "x:y"] 0 = Raise ValueError
  /\ spec_split_line "a: b" = Some ("a", "b")
  /\ split_name_value "a: b" = Return ("a", " b").
Proof.
  repeat split.
Qed.

(** C6. The specification has a line with a value be a leaf, bound and done
    with, the lines after it left alone. In the code no call gets as far as
    the value of its line: every call reads the line after its own first, so
    it ends in [IndexError] when there is none, under every namespace, and in
    the module as it is it ends in the [NameError] of the indentation helper
    when there is one; so for ["foo:bar"], alone and with ["baz:qux"] after
    it. *)
Theorem step_reads_the_next_line_first :
  forall (line : string) (rest : list string) (depth : nat),
    _add_ansibilized_section module_globals (line :: rest) depth
    = Raise (match rest with
             | [] => IndexError
             | _ :: _ => NameError
             end)
    /\ (forall globals : gmap string pyval,
           _add_ansibilized_section globals [line] depth = Raise IndexError)
    /\ _add_ansibilized_section module_globals ["foo:bar"] 0
       <> Return (leaf_shape "foo" "bar")
    /\ _add_ansibilized_section module_globals ["foo:bar"; "baz:qux"] 0
       = Raise NameError.
Proof.
  intros line rest depth. split; [|split; [|split]].
  - destruct rest as [|next_line rest]; [reflexivity|].
    apply add_section_unbound_s. reflexivity.
  - intros globals. reflexivity.
  - discriminate.
  - reflexivity.
Qed.

(** ** Hidden state and termination *)

(** The namespace bears on the parse through the name [s] and through
    nothing else. *)
Lemma add_section_same_s (globals1 globals2 : gmap string pyval)
    (arr : list string) (depth : nat) :
  globals1 !! "s" = globals2 !! "s" ->
  _add_ansibilized_section globals1 arr depth
  = _add_ansibilized_section globals2 arr depth.
Proof.
  intros Hs. revert depth.
  induction arr as [|line remainder IH]; intros depth; [reflexivity|].
  rewrite !add_section_unfold.
  rewrite (section_body_tail_only globals1 _
             (_add_ansibilized_section globals2) line remainder depth IH).
  unfold section_body. destruct remainder as [|next_line rest];
    [reflexivity|].
  unfold _count_indentation. rewrite Hs. reflexivity.
Qed.

(** C9. The parse is not a function of its text alone: it reads the
    module-level name [s]. The same text ends in [NameError] in the module
    as it is and in [IndexError] once [s] is bound to a string; that name is
    all of the hidden state, two namespaces that agree on it give the same
    result for every text. *)
Theorem parse_reads_module_level_s :
  ansibilize_resource module_globals two_level_text = Raise NameError
  /\ ansibilize_resource (globals_with_s "") two_level_text = Raise IndexError
  /\ ansibilize_resource module_globals two_level_text
     <> ansibilize_resource (globals_with_s "") two_level_text
  /\ (forall (globals1 globals2 : gmap string pyval) (text : string),
         globals1 !! "s" = globals2 !! "s" ->
         ansibilize_resource globals1 text = ansibilize_resource globals2 text).
Proof.
  split; [reflexivity|]. split; [reflexivity|]. split; [discriminate|].
  intros globals1 globals2 text Hs. apply add_section_same_s, Hs.
Qed.

(** C10. The parser terminates: every recursive call is on the tail of the
    array, so a call on [n] lines nests at most [n] frames. With at least
    that many frames (and one for an empty array) the call on a finite stack
    ends as the call on an unbounded one does, and not in
    [RecursionError]. *)
Theorem recursion_depth_bounded_by_lines :
  forall (globals : gmap string pyval) (arr : list string)
         (depth limit : nat),
    (Nat.max 1 (length arr) <= limit)%nat ->
    _add_ansibilized_section_limited globals limit arr depth
    = _add_ansibilized_section globals arr depth
    /\ _add_ansibilized_section_limited globals limit arr depth
       <> Raise RecursionError.
Proof.
  intros globals arr depth limit Hle.
  rewrite (add_section_limited_enough globals limit arr depth Hle).
  split; [reflexivity|]. apply add_section_no_recursion_error.
Qed.

Lemma recursion_depth_bounded_by_lines_witness :
  (Nat.max 1 (length ["a:"; "b:"; "c:d"]) <= 3)%nat
  /\ _add_ansibilized_section_limited (globals_with_s "") 3
       ["a:"; "b:"; "c:d"] 0
     = _add_ansibilized_section (globals_with_s "") ["a:"; "b:"; "c:d"] 0
  /\ _add_ansibilized_section_limited (globals_with_s "") 3
       ["a:"; "b:"; "c:d"] 0
     <> Raise RecursionError.
Proof.
  split; [simpl; lia|].
  apply (recursion_depth_bounded_by_lines (globals_with_s "")
           ["a:"; "b:"; "c:d"] 0 3).
  simpl; lia.
Defined.

(** The bound is met: three lines that all pass their checks need three
    frames; with two the innermost call cannot start. *)
Example two_frames_are_too_few :
  _add_ansibilized_section_limited (globals_with_s "") 2
    ["a:"; "b:"; "c:d"] 0 = Raise RecursionError
  /\ _add_ansibilized_section_limited (globals_with_s "") 3
       ["a:"; "b:"; "c:d"] 0 = Raise IndexError.
Proof. split; reflexivity. Qed.

(** ** [_values_fmt] *)

Section ValuesFmt.

Context {V : Type}.
Variable format0 : V -> string.
Variable boolean : V -> res bool.

Abbreviation step := (values_fmt_step format0 boolean).
Abbreviation loop := (values_fmt_loop format0 boolean).

(** The word a value is written as, when its conversion goes through. *)
Lemma values_fmt_step_inv (value : V) (value_type : string)
    (words : list string) :
  step value value_type = Return words ->
  exists w, words = ["--type"; value_type; "--set"; w]
    /\ (value_type <> "bool" -> w = format0 value)
    /\ (value_type = "bool" ->
        (boolean value = Return true /\ w = "true")
        \/ (boolean value = Return false /\ w = "false")).
Proof.
  unfold values_fmt_step.
  destruct (String.eqb_spec value_type "bool") as [->|Hne].
  - destruct (boolean value) as [[|]|e]; simpl; intros [= <-];
      eexists; (split; [reflexivity|]); split; try congruence; auto.
  - intros [= <-]. eexists. split; [reflexivity|]. split; congruence.
Qed.

Lemma values_fmt_loop_acc (pairs : list (V * string)) (acc : list string) :
  loop pairs acc = (r ← loop pairs []; Return (acc ++ r)).
Proof.
  revert acc. induction pairs as [|[value value_type] pairs IH]; intros acc.
  - simpl. rewrite app_nil_r. reflexivity.
  - simpl. destruct (step value value_type) as [words|e]; simpl;
      [|reflexivity].
    rewrite (IH (acc ++ words)), (IH words).
    destruct (loop pairs []) as [r|e]; simpl; [|reflexivity].
    rewrite app_assoc. reflexivity.
Qed.

Lemma values_fmt_loop_cons (value : V) (value_type : string)
    (pairs : list (V * string)) :
  loop ((value, value_type) :: pairs) [] =
  (words ← step value value_type; r ← loop pairs []; Return (words ++ r)).
Proof.
  simpl. destruct (step value value_type) as [words|e]; simpl;
    [|reflexivity].
  apply values_fmt_loop_acc.
Qed.

Lemma values_fmt_loop_app (pairs1 pairs2 : list (V * string)) :
  loop (pairs1 ++ pairs2) [] =
  (r1 ← loop pairs1 []; r2 ← loop pairs2 []; Return (r1 ++ r2)).
Proof.
  induction pairs1 as [|[value value_type] pairs1 IH].
  - simpl. destruct (loop pairs2 []); reflexivity.
  - rewrite <- app_comm_cons, !values_fmt_loop_cons, IH.
    destruct (step value value_type) as [words|e]; simpl; [|reflexivity].
    destruct (loop pairs1 []) as [r1|e]; simpl; [|reflexivity].
    destruct (loop pairs2 []) as [r2|e]; simpl; [|reflexivity].
    rewrite app_assoc. reflexivity.
Qed.

Lemma values_fmt_loop_length (pairs : list (V * string)) (r : list string) :
  loop pairs [] = Return r -> length r = 4 * length pairs.
Proof.
  revert r. induction pairs as [|[value value_type] pairs IH]; intros r.
  - intros [= <-]. reflexivity.
  - rewrite values_fmt_loop_cons.
    destruct (step value value_type) as [words|e] eqn:Hstep; simpl;
      [|discriminate].
    destruct (loop pairs []) as [r'|e]; simpl; [|discriminate].
    intros [= <-]. apply values_fmt_step_inv in Hstep as (w & -> & _).
    simpl. rewrite (IH r' eq_refl). lia.
Qed.

(** The four words of the [i]-th pair in what the loop returns. *)
Lemma values_fmt_loop_lookup (pairs : list (V * string)) (r : list string)
    (i : nat) (value : V) (value_type : string) :
  loop pairs [] = Return r ->
  pairs !! i = Some (value, value_type) ->
  exists words, step value value_type = Return words
    /\ take 4 (drop (4 * i) r) = words.
Proof.
  revert r i. induction pairs as [|[v t] pairs IH]; intros r i Hloop Hi.
  - discriminate.
  - rewrite values_fmt_loop_cons in Hloop.
    destruct (step v t) as [words|e] eqn:Hstep; simpl in Hloop;
      [|discriminate].
    destruct (loop pairs []) as [r'|e] eqn:Hrest; simpl in Hloop;
      [|discriminate].
    injection Hloop as <-.
    pose proof (values_fmt_step_inv _ _ _ Hstep) as (w & Hwords & _).
    destruct i as [|i].
    + injection Hi as <- <-. exists words. split; [exact Hstep|].
      subst words. reflexivity.
    + destruct (IH r' i eq_refl Hi) as (words' & Hstep' & Htake).
      exists words'. split; [exact Hstep'|].
      subst words. replace (4 * S i) with (4 + 4 * i) by lia.
      rewrite <- drop_drop. exact Htake.
Qed.

(** The loop returns exactly when every step does. *)
Lemma values_fmt_loop_returns (pairs : list (V * string)) :
  (exists r, loop pairs [] = Return r) <->
  Forall (fun p => exists words, step p.1 p.2 = Return words) pairs.
Proof.
  induction pairs as [|[v t] pairs IH].
  - split; [constructor|]. intros _. exists []. reflexivity.
  - rewrite values_fmt_loop_cons, Forall_cons, <- IH. simpl.
    destruct (step v t) as [words|e]; simpl.
    + destruct (loop pairs []) as [r|e]; simpl.
      * split; eauto.
      * split; [intros [r Hr]; discriminate|].
        intros [_ [r Hr]]. discriminate.
    + split; [intros [r Hr]; discriminate|].
      intros [[w Hw] _]. discriminate.
Qed.

End ValuesFmt.

(** X1. What [_values_fmt] returns has four words for every pair that [zip]
    makes of its two lists: its length is four times the length of the
    shorter list. *)
Theorem values_fmt_length :
  forall (V : Type) (format0 : V -> string) (boolean : V -> res bool)
         (values : list V) (value_types r : list string),
    _values_fmt format0 boolean values value_types = Return r ->
    length r = 4 * Nat.min (length values) (length value_types).
Proof.
  intros V format0 boolean values value_types r H.
  apply values_fmt_loop_length in H. rewrite H, length_zip_with.
  reflexivity.
Qed.

Lemma values_fmt_length_witness :
  _values_fmt id sample_boolean ["10"; "yes"; "x"] ["int"; "bool"]
  = Return ["--type"; "int"; "--set"; "10"; "--type"; "bool"; "--set"; "true"]
  /\ length ["--type"; "int"; "--set"; "10";
             "--type"; "bool"; "--set"; "true"]
     = 4 * Nat.min (length ["10"; "yes"; "x"]) (length ["int"; "bool"]).
Proof.
  split; [reflexivity|].
  apply (values_fmt_length string id sample_boolean
           ["10"; "yes"; "x"] ["int"; "bool"]).
  reflexivity.
Defined.

(** X2. In what [_values_fmt] returns, the four words at the positions
    [4i .. 4i+3] are [--type], the [i]-th value type, [--set] and the [i]-th
    value: formatted as it is when its type is not "bool", and written
    "true" or "false", as [boolean] finds it, when its type is "bool". *)
Theorem values_fmt_words :
  forall (V : Type) (format0 : V -> string) (boolean : V -> res bool)
         (values : list V) (value_types r : list string)
         (i : nat) (value : V) (value_type : string),
    _values_fmt format0 boolean values value_types = Return r ->
    values !! i = Some value ->
    value_types !! i = Some value_type ->
    exists w,
      take 4 (drop (4 * i) r) = ["--type"; value_type; "--set"; w]
      /\ (value_type <> "bool" -> w = format0 value)
      /\ (value_type = "bool" ->
          (boolean value = Return true /\ w = "true")
          \/ (boolean value = Return false /\ w = "false")).
Proof.
  intros V format0 boolean values value_types r i value value_type
    Hr Hvalue Htype.
  assert (Hpair : zip values value_types !! i = Some (value, value_type)).
  { rewrite lookup_zip_with, Hvalue. simpl. rewrite Htype. reflexivity. }
  destruct (values_fmt_loop_lookup _ _ _ _ _ _ _ Hr Hpair)
    as (words & Hstep & Htake).
  apply values_fmt_step_inv in Hstep as (w & -> & Hplain & Hbool).
  exists w. auto.
Qed.

Lemma values_fmt_words_witness :
  _values_fmt id sample_boolean ["10"; "no"] ["int"; "bool"]
  = Return ["--type"; "int"; "--set"; "10"; "--type"; "bool"; "--set"; "false"]
  /\ ["10"; "no"] !! 1 = Some "no"
  /\ ["int"; "bool"] !! 1 = Some "bool"
  /\ exists w,
      take 4 (drop (4 * 1) ["--type"; "int"; "--set"; "10";
                            "--type"; "bool"; "--set"; "false"])
      = ["--type"; "bool"; "--set"; w]
      /\ ("bool" <> "bool" -> w = id "no")
      /\ ("bool" = "bool" ->
          (sample_boolean "no" = Return true /\ w = "true")
          \/ (sample_boolean "no" = Return false /\ w = "false")).
Proof.
  split; [reflexivity|]. split; [reflexivity|]. split; [reflexivity|].
  apply (values_fmt_words string id sample_boolean ["10"; "no"]
           ["int"; "bool"] _ 1 "no" "bool"); reflexivity.
Defined.

(** X3. [_values_fmt] returns exactly when [boolean] returns for every value
    that [zip] pairs with the type "bool"; values of other types, and the
    values and types that [zip] leaves unpaired, are never converted. *)
Theorem values_fmt_returns_iff :
  forall (V : Type) (format0 : V -> string) (boolean : V -> res bool)
         (values : list V) (value_types : list string),
    (exists r, _values_fmt format0 boolean values value_types = Return r)
    <->
    (forall (i : nat) (value : V),
        values !! i = Some value -> value_types !! i = Some "bool" ->
        exists b, boolean value = Return b).
Proof.
  intros V format0 boolean values value_types.
  unfold _values_fmt. rewrite values_fmt_loop_returns, Forall_lookup.
  split.
  - intros H i value Hvalue Htype.
    destruct (H i (value, "bool")) as [words Hwords].
    { rewrite lookup_zip_with, Hvalue. simpl. rewrite Htype. reflexivity. }
    simpl in Hwords. unfold values_fmt_step in Hwords. simpl in Hwords.
    destruct (boolean value) as [b|e]; [eauto|discriminate].
  - intros H i [value value_type] Hpair.
    apply lookup_zip_with_Some in Hpair
      as (v & t & [= -> ->] & Hvalue & Htype).
    simpl. unfold values_fmt_step.
    destruct (String.eqb_spec t "bool") as [->|Hne]; [|eauto].
    destruct (H i v Hvalue Htype) as [b ->]. simpl. eauto.
Qed.

(** X4. [_values_fmt] works pair by pair: for lists put together from two
    parts each, with as many values as types in the first part, the answer is
    the answer for the first parts followed by the answer for the second
    parts, and an exception of the first parts comes before one of the
    second. *)
Theorem values_fmt_app :
  forall (V : Type) (format0 : V -> string) (boolean : V -> res bool)
         (values1 values2 : list V) (types1 types2 : list string),
    length values1 = length types1 ->
    _values_fmt format0 boolean (values1 ++ values2) (types1 ++ types2) =
    (r1 ← _values_fmt format0 boolean values1 types1;
     r2 ← _values_fmt format0 boolean values2 types2;
     Return (r1 ++ r2)).
Proof.
  intros V format0 boolean values1 values2 types1 types2 Hlen.
  unfold _values_fmt. rewrite (zip_with_app _ _ _ _ _ Hlen).
  apply values_fmt_loop_app.
Qed.

Lemma values_fmt_app_witness :
  length ["10"] = length ["int"]
  /\ _values_fmt id sample_boolean (["10"] ++ ["maybe"]) (["int"] ++ ["bool"])
     = (r1 ← _values_fmt id sample_boolean ["10"] ["int"];
        r2 ← _values_fmt id sample_boolean ["maybe"] ["bool"];
        Return (r1 ++ r2)).
Proof.
  split; [reflexivity|].
  apply (values_fmt_app string id sample_boolean ["10"] ["maybe"]
           ["int"] ["bool"]).
  reflexivity.
Defined.

(** X5. [_values_fmt] does not notice lists of different lengths: what the
    longer list has beyond the length of the shorter one is dropped without
    an error, and the answer is that for the two lists cut to the same
    length. *)
Theorem values_fmt_surplus_dropped :
  forall (V : Type) (format0 : V -> string) (boolean : V -> res bool)
         (values : list V) (value_types : list string),
    let n := Nat.min (length values) (length value_types) in
    _values_fmt format0 boolean values value_types =
    _values_fmt format0 boolean (take n values) (take n value_types).
Proof.
  intros V format0 boolean values value_types n. unfold _values_fmt.
  rewrite zip_with_take_both' by (subst n; lia). reflexivity.
Qed.

(** X6. When [_values_fmt] raises, the exception is the one [boolean] raised
    for a value of type "bool", the first such value in the lists: every
    value of type "bool" before it was converted. *)
Theorem values_fmt_raises_first :
  forall (V : Type) (format0 : V -> string) (boolean : V -> res bool)
         (values : list V) (value_types : list string) (e : exn),
    _values_fmt format0 boolean values value_types = Raise e ->
    exists (i : nat) (value : V),
      values !! i = Some value
      /\ value_types !! i = Some "bool"
      /\ boolean value = Raise e
      /\ forall (j : nat) (earlier : V),
          j < i -> values !! j = Some earlier ->
          value_types !! j = Some "bool" ->
          exists b, boolean earlier = Return b.
Proof.
  intros V format0 boolean values. unfold _values_fmt.
  induction values as [|v values IH]; intros [|t value_types] e;
    try discriminate.
  change (zip (v :: values) (t :: value_types))
    with ((v, t) :: zip values value_types).
  rewrite values_fmt_loop_cons.
  destruct (values_fmt_step format0 boolean v t) as [words|e'] eqn:Hstep;
    simpl.
  - destruct (values_fmt_loop format0 boolean (zip values value_types) [])
      as [r|e'] eqn:Hrest; simpl; [discriminate|].
    intros [= ->].
    destruct (IH value_types e Hrest) as (i & value & Hv & Ht & Hb & Hbefore).
    exists (S i), value. repeat split; try assumption.
    intros [|j] earlier Hj Hearlier Htype.
    + simpl in Hearlier, Htype. injection Hearlier as ->.
      injection Htype as ->.
      unfold values_fmt_step in Hstep. simpl in Hstep.
      destruct (boolean earlier) as [b|e']; [eauto|discriminate].
    + apply (Hbefore j earlier); [lia|assumption..].
  - intros [= ->]. unfold values_fmt_step in Hstep.
    destruct (String.eqb_spec t "bool") as [->|Hne]; [|discriminate].
    destruct (boolean v) as [b|e'] eqn:Hb; [discriminate|].
    injection Hstep as ->.
    exists 0, v. repeat split; try assumption. intros j earlier Hj. lia.
Qed.

Lemma values_fmt_raises_first_witness :
  _values_fmt id sample_boolean ["yes"; "maybe"; "?"] ["bool"; "bool"; "bool"]
  = Raise TypeError
  /\ exists (i : nat) (value : string),
      ["yes"; "maybe"; "?"] !! i = Some value
      /\ ["bool"; "bool"; "bool"] !! i = Some "bool"
      /\ sample_boolean value = Raise TypeError
      /\ forall (j : nat) (earlier : string),
          j < i -> ["yes"; "maybe"; "?"] !! j = Some earlier ->
          ["bool"; "bool"; "bool"] !! j = Some "bool" ->
          exists b, sample_boolean earlier = Return b.
Proof.
  split; [reflexivity|].
  apply (values_fmt_raises_first string id sample_boolean
           ["yes"; "maybe"; "?"] ["bool"; "bool"; "bool"] TypeError).
  reflexivity.
Defined.

(** ** The cluster-resource modules *)

Import Pcs.

Section PcsFacts.

Variable py_repr : jval -> string.
Variable run_command : list jval -> jval -> reply (Z * string * string).

Lemma bind_run {A B : Type} (m : M A) (k : A -> M B) (ran : list jval) :
  (m ≫= k) ran =
  match m ran with
  | (Ret a, ran') => k a ran'
  | (Stop s, ran') => (Stop s, ran')
  end.
Proof. reflexivity. Qed.

Lemma dict_getitem_some (d : gmap string jval) (key : string) (v : jval)
    (ran : list jval) :
  d !! key = Some v -> dict_getitem d key ran = (Ret v, ran).
Proof. intros H. unfold dict_getitem. rewrite H. reflexivity. Qed.

Lemma dict_getitem_none (d : gmap string jval) (key : string)
    (ran : list jval) :
  d !! key = None ->
  dict_getitem d key ran = (Stop (Uncaught (KeyError key)), ran).
Proof. intros H. unfold dict_getitem. rewrite H. reflexivity. Qed.

Lemma percent_s_plain (prefix : string) (arg : jval) (ran : list jval) :
  (forall items, arg <> JTuple items) ->
  percent_s py_repr prefix arg ran = (Ret (prefix +:+ py_str py_repr arg), ran).
Proof.
  intros H. destruct arg; try reflexivity. exfalso. exact (H items eq_refl).
Qed.

(** What [percent_s] can do: return, or raise [TypeError], without a
    command. *)
Lemma percent_s_cases (prefix : string) (arg : jval) (ran : list jval) :
  (exists s, percent_s py_repr prefix arg ran = (Ret (prefix +:+ s), ran))
  \/ percent_s py_repr prefix arg ran = (Stop (Uncaught TypeError), ran).
Proof.
  destruct arg; try (left; eexists; reflexivity).
  destruct items as [|item [|item' items]]; [right|left; eexists|right];
    reflexivity.
Qed.

(** [get_resource] runs one command, a [pcs resource config], if any. *)
Lemma get_resource_cases (resource : jval) (ran : list jval) :
  get_resource py_repr run_command resource ran
  = (Stop (Uncaught TypeError), ran)
  \/ exists s,
      let cmd := JStr ("pcs resource config " +:+ s) in
      (exists stopped,
          run_command ran cmd = Stop stopped
          /\ get_resource py_repr run_command resource ran
             = (Stop stopped, ran ++ [cmd]))
      \/ (exists rc out err,
            run_command ran cmd = Ret (rc, out, err)
            /\ get_resource py_repr run_command resource ran
               = (Ret (JDict {[ "resource" :=
                                  if (rc =? 1)%Z then JNone else resource;
                                "msg" := JStr out;
                                "failed" := JBool (rc =? 1)%Z ]}),
                  ran ++ [cmd])).
Proof.
  unfold get_resource. rewrite bind_run.
  destruct (percent_s_cases "pcs resource config " resource ran)
    as [[s ->]| ->]; [|left; reflexivity].
  right. exists s. rewrite bind_run. unfold module_run_command.
  destruct (run_command ran _) as [[[rc out] err]|stopped] eqn:Hrun.
  - right. exists rc, out, err. split; [reflexivity|].
    simpl. destruct (rc =? 1)%Z; reflexivity.
  - left. exists stopped. split; reflexivity.
Qed.

End PcsFacts.

Ltac get_param H := rewrite bind_run, (dict_getitem_some _ _ _ _ H).

(** X7. [main] of [pacemaker_cluster_resource] reads the parameter
    [resource_options], which is an option of a resource and not of the
    module: for parameters that have the five other keys [main] reads and
    not this one, [main] ends in [KeyError] of that key before it looks at
    the state, and no command is run. *)
Theorem main_raises_KeyError_resource_options :
  forall (py_repr : jval -> string)
         (run_command : list jval -> jval -> reply (Z * string * string))
         (global_resources : option jval)
         (params : gmap string jval) (ran : list jval),
    is_Some (params !! "name") -> is_Some (params !! "state") ->
    is_Some (params !! "node") -> is_Some (params !! "force") ->
    is_Some (params !! "timeout") ->
    params !! "resource_options" = None ->
    main py_repr run_command global_resources params ran
    = (Stop (Uncaught (KeyError "resource_options")), ran).
Proof.
  intros py_repr run_command global_resources params ran
    [name Hname] [state Hstate] [node Hnode] [force Hforce]
    [timeout Htimeout] Hmissing.
  unfold main.
  get_param Hname. get_param Hstate. get_param Hnode. get_param Hforce.
  get_param Htimeout.
  rewrite bind_run, (dict_getitem_none _ _ _ Hmissing). reflexivity.
Qed.

Lemma main_raises_KeyError_resource_options_witness :
  is_Some (sample_params (JStr "vip") (JStr "absent") !! "name")
  /\ sample_params (JStr "vip") (JStr "absent") !! "resource_options" = None
  /\ main sample_repr (answering 0 "Resource: vip" "") None
       (sample_params (JStr "vip") (JStr "absent")) []
     = (Stop (Uncaught (KeyError "resource_options")), []).
Proof.
  split; [vm_compute; eauto|]. split; [reflexivity|].
  apply (main_raises_KeyError_resource_options sample_repr
           (answering 0 "Resource: vip" "") None
           (sample_params (JStr "vip") (JStr "absent")) []);
    solve [vm_compute; eauto | reflexivity].
Defined.

Section PcsMain.

Variable py_repr : jval -> string.
Variable run_command : list jval -> jval -> reply (Z * string * string).

Lemma prefix_append (p s : string) : String.prefix p (p +:+ s) = true.
Proof.
  induction p as [|c p IH]; simpl; [destruct s; reflexivity|].
  destruct (ascii_dec c c); [exact IH|congruence].
Qed.

Lemma getitem_msg (resource failed : jval) (out : string) (ran : list jval) :
  getitem (JDict {[ "resource" := resource; "msg" := JStr out;
                    "failed" := failed ]}) "msg" ran
  = (Ret (JStr out), ran).
Proof. unfold getitem. apply dict_getitem_some. reflexivity. Qed.

Lemma getitem_no_such_key (resource failed : jval) (out : string)
    (ran : list jval) :
  getitem (JDict {[ "resource" := resource; "msg" := JStr out;
                    "failed" := failed ]})
    "Resource does not exist to update." ran
  = (Stop (Uncaught (KeyError "Resource does not exist to update.")), ran).
Proof. unfold getitem. apply dict_getitem_none. reflexivity. Qed.

Lemma ret_run {A : Type} (a : A) (ran : list jval) :
  (mret a : M A) ran = (Ret a, ran).
Proof. reflexivity. Qed.

Ltac nothing_more :=
  exists [];
  split; [symmetry; apply app_nil_r
         | split; [simpl; lia | apply List.Forall_nil]].

Ltac one_config :=
  eexists [_];
  split; [reflexivity | split; [simpl; lia |]];
  apply List.Forall_cons; [|apply List.Forall_nil];
  simpl; rewrite prefix_append; reflexivity.

(** X9. In the module as it is, where no name [resources] is bound, [main]
    runs at most two commands, and each of them is a string that starts with
    [pcs resource config ] or [pcs resource delete ]: it never creates or
    updates a resource, whatever the parameters are and whatever the
    commands answer. *)
Theorem main_runs_config_and_delete_only (params : gmap string jval)
    (ran : list jval) :
  exists cmds,
    (main py_repr run_command None params ran).2 = ran ++ cmds
    /\ length cmds <= 2
    /\ Forall (fun cmd => is_config_or_delete cmd = true) cmds.
Proof.
  unfold main.
  rewrite bind_run.
  destruct (params !! "name") as [name|] eqn:Hname;
    [rewrite (dict_getitem_some _ _ _ _ Hname)
    |rewrite (dict_getitem_none _ _ _ Hname); nothing_more].
  rewrite bind_run.
  destruct (params !! "state") as [state|] eqn:Hstate;
    [rewrite (dict_getitem_some _ _ _ _ Hstate)
    |rewrite (dict_getitem_none _ _ _ Hstate); nothing_more].
  rewrite bind_run.
  destruct (params !! "node") as [node|] eqn:Hnode;
    [rewrite (dict_getitem_some _ _ _ _ Hnode)
    |rewrite (dict_getitem_none _ _ _ Hnode); nothing_more].
  rewrite bind_run.
  destruct (params !! "force") as [force|] eqn:Hforce;
    [rewrite (dict_getitem_some _ _ _ _ Hforce)
    |rewrite (dict_getitem_none _ _ _ Hforce); nothing_more].
  rewrite bind_run.
  destruct (params !! "timeout") as [timeout|] eqn:Htimeout;
    [rewrite (dict_getitem_some _ _ _ _ Htimeout)
    |rewrite (dict_getitem_none _ _ _ Htimeout); nothing_more].
  rewrite bind_run.
  destruct (params !! "resource_options") as [options|] eqn:Hoptions;
    [rewrite (dict_getitem_some _ _ _ _ Hoptions)
    |rewrite (dict_getitem_none _ _ _ Hoptions); nothing_more].
  destruct (str_eqb state "present") eqn:Hpresent.
  { rewrite bind_run. destruct (is_none name); [nothing_more|].
    rewrite bind_run.
    destruct (get_resource_cases py_repr run_command name ran)
      as [Hg|(s & [(stopped & Hr & Hg)|(rc & out & err & Hr & Hg)])];
      rewrite Hg; [nothing_more|one_config|].
    rewrite bind_run, getitem_msg.
    destruct (negb (str_eqb (JStr out) "")).
    - rewrite bind_run, getitem_msg. one_config.
    - one_config. }
  rewrite bind_run, ret_run.
  destruct (str_eqb state "updated") eqn:Hupdated.
  { rewrite bind_run. destruct (is_none name); [nothing_more|].
    rewrite bind_run.
    destruct (get_resource_cases py_repr run_command name ran)
      as [Hg|(s & [(stopped & Hr & Hg)|(rc & out & err & Hr & Hg)])];
      rewrite Hg; [nothing_more|one_config|].
    rewrite bind_run, getitem_msg.
    destruct (str_eqb (JStr out) "").
    - rewrite bind_run, getitem_no_such_key. one_config.
    - one_config. }
  rewrite bind_run, ret_run.
  destruct (str_eqb state "absent") eqn:Habsent; [|nothing_more].
  destruct (is_none name); [nothing_more|].
  rewrite bind_run.
  destruct (get_resource_cases py_repr run_command name ran)
    as [Hg|(s & [(stopped & Hr & Hg)|(rc & out & err & Hr & Hg)])];
    rewrite Hg; [nothing_more|one_config|].
  rewrite bind_run, getitem_msg.
  destruct (str_eqb (JStr out) ""); [one_config|].
  rewrite bind_run.
  destruct (percent_s_cases py_repr "pcs resource delete " name
              (ran ++ [JStr ("pcs resource config " +:+ s)]))
    as [[s' ->]| ->]; [|one_config].
  rewrite bind_run. unfold module_run_command.
  destruct (run_command (ran ++ _) _) as [[[rc' out'] err']|stopped];
    [destruct (negb (rc' =? 0)%Z)|];
    (eexists [_; _];
     split; [simpl; rewrite <- app_assoc; reflexivity | split; [simpl; lia|]];
     apply List.Forall_cons;
     [|apply List.Forall_cons; [|apply List.Forall_nil]];
     simpl; rewrite prefix_append; rewrite ?orb_true_r; reflexivity).
Qed.

Lemma str_eqb_true (v : jval) (text : string) :
  str_eqb v text = true <-> v = JStr text.
Proof.
  destruct v; simpl; try (split; [discriminate|intros [=]]).
  rewrite String.eqb_eq. split; [intros ->; reflexivity|intros [= ->]].
  reflexivity.
Qed.

Lemma get_resource_returns (name : jval) (ran : list jval)
    (rc : Z) (out err : string) :
  (forall items, name <> JTuple items) ->
  run_command ran (JStr ("pcs resource config " +:+ py_str py_repr name))
  = Ret (rc, out, err) ->
  get_resource py_repr run_command name ran
  = (Ret (JDict {[ "resource" := if (rc =? 1)%Z then JNone else name;
                   "msg" := JStr out;
                   "failed" := JBool (rc =? 1)%Z ]}),
     ran ++ [JStr ("pcs resource config " +:+ py_str py_repr name)]).
Proof.
  intros Hplain Hrun. unfold get_resource.
  rewrite bind_run, (percent_s_plain _ _ _ _ Hplain), bind_run.
  unfold module_run_command. rewrite Hrun. simpl.
  destruct (rc =? 1)%Z; reflexivity.
Qed.

End PcsMain.

(** X14. [main] of [pacemaker_cluster_resource_info] does not report a
    failure of its command: whatever exit code [pcs resource config] has,
    the module ends in [exit_json] with [changed] false and an empty [msg],
    and the exit code 1 shows only inside [data], as [failed] true and
    [resource] [None]; every other exit code counts as success. A name that
    is [None] is formatted like any other and queried as "None". *)
Theorem info_main_always_exits :
  forall (py_repr : jval -> string)
         (run_command : list jval -> jval -> reply (Z * string * string))
         (params : gmap string jval) (ran : list jval) (name : jval)
         (rc : Z) (out err : string),
    let config := JStr ("pcs resource config " +:+ py_str py_repr name) in
    params !! "name" = Some name ->
    (forall items, name <> JTuple items) ->
    run_command ran config = Ret (rc, out, err) ->
    info_main py_repr run_command params ran
    = (Stop (ExitJson
               (<["data" :=
                    JDict {[ "resource" :=
                               if (rc =? 1)%Z then JNone else name;
                             "msg" := JStr out;
                             "failed" := JBool (rc =? 1)%Z ]}]>
                  initial_result)),
       ran ++ [config])
    /\ (name = JNone -> config = JStr "pcs resource config None").
Proof.
  intros py_repr run_command params ran name rc out err config
    Hname Hplain Hrun.
  split; [|intros ->; reflexivity].
  unfold info_main. get_param Hname.
  rewrite bind_run, (get_resource_returns _ _ _ _ _ _ _ Hplain Hrun).
  reflexivity.
Qed.

Lemma info_main_always_exits_witness :
  info_main sample_repr (answering 2 "" "Error") {[ "name" := JNone ]} []
  = (Stop (ExitJson
             (<["data" :=
                  JDict {[ "resource" := if (2 =? 1)%Z then JNone else JNone;
                           "msg" := JStr "";
                           "failed" := JBool (2 =? 1)%Z ]}]>
                initial_result)),
     [] ++ [JStr ("pcs resource config " +:+ py_str sample_repr JNone)])
  /\ (JNone = JNone ->
      JStr ("pcs resource config " +:+ py_str sample_repr JNone)
      = JStr "pcs resource config None").
Proof.
  apply (info_main_always_exits sample_repr (answering 2 "" "Error")
           {[ "name" := JNone ]} [] JNone 2 "" "Error");
    solve [ reflexivity | intros items H; discriminate H ].
Defined.

Section PcsChange.

Variable py_repr : jval -> string.
Variable run_command : list jval -> jval -> reply (Z * string * string).

Lemma getitem_some (d : gmap string jval) (key : string) (v : jval)
    (ran : list jval) :
  d !! key = Some v -> getitem (JDict d) key ran = (Ret v, ran).
Proof. apply dict_getitem_some. Qed.

Lemma add_unless_empty_run (d : gmap string jval) (key fmt : string)
    (cmd v : jval) (ran : list jval) :
  d !! key = Some v ->
  add_unless_empty (JDict d) key fmt cmd ran
  = (Ret (if str_eqb v "" then cmd else paired fmt cmd v), ran).
Proof.
  intros H. unfold add_unless_empty.
  rewrite bind_run, (getitem_some _ _ _ _ H).
  destruct (str_eqb v ""); [reflexivity|].
  rewrite bind_run, (getitem_some _ _ _ _ H). reflexivity.
Qed.

Lemma add_if_true_run (d : gmap string jval) (key flag : string)
    (cmd v : jval) (ran : list jval) :
  d !! key = Some v ->
  add_if_true (JDict d) key flag cmd ran
  = (Ret (if truthy v then paired "%s %s" cmd (JStr flag) else cmd), ran).
Proof.
  intros H. unfold add_if_true.
  rewrite bind_run, (getitem_some _ _ _ _ H).
  destruct (truthy v); reflexivity.
Qed.


(** With every key in place, the two functions put a command together and
    go on to run it: the command is a pairing around the formatted string,
    with one level for the resource options, one for each of the five
    options that is not the empty string, and one for each flag that is
    true. *)
Lemma change_resource_command (verb : string) (name : jval)
    (d : gmap string jval) (ran : list jval)
    (standard provider type options operations meta clone promotable group
       disabled agent_validation : jval) :
  d !! "standard" = Some standard -> d !! "provider" = Some provider ->
  d !! "type" = Some type -> d !! "resource_options" = Some options ->
  d !! "operations" = Some operations -> d !! "meta" = Some meta ->
  d !! "clone" = Some clone -> d !! "promotable" = Some promotable ->
  d !! "group" = Some group -> d !! "disabled" = Some disabled ->
  d !! "agent_validation" = Some agent_validation ->
  exists cmd fmt inner arg,
    change_resource py_repr run_command verb name (JDict d) ran
    = change_resource_tail py_repr run_command name cmd ran
    /\ cmd = paired fmt inner arg
    /\ innermost cmd
       = JStr ("pcs resource " +:+ verb +:+ " " +:+ py_str py_repr name
               +:+ " " +:+ py_str py_repr standard +:+ ":"
               +:+ py_str py_repr provider +:+ ":" +:+ py_str py_repr type)
    /\ levels cmd
       = (if truthy agent_validation
          then [("%s %s", JStr "--agent-validation")] else [])
         ++ (if truthy disabled then [("%s %s", JStr "--disabled")] else [])
         ++ (if str_eqb group "" then [] else [("%s group %s", group)])
         ++ (if str_eqb promotable ""
             then [] else [("%s promotable %s", promotable)])
         ++ (if str_eqb clone "" then [] else [("%s clone %s", clone)])
         ++ (if str_eqb meta "" then [] else [("%s meta %s", meta)])
         ++ (if str_eqb operations ""
             then [] else [("%s op %s", operations)])
         ++ [("%s %s", options)].
Proof.
  intros Hstandard Hprovider Htype Hoptions Hoperations Hmeta Hclone
    Hpromotable Hgroup Hdisabled Hagent.
  unfold change_resource.
  rewrite bind_run, (getitem_some _ _ _ _ Hstandard).
  rewrite bind_run, (getitem_some _ _ _ _ Hprovider).
  rewrite bind_run, (getitem_some _ _ _ _ Htype).
  rewrite bind_run, (getitem_some _ _ _ _ Hoptions).
  rewrite bind_run, (add_unless_empty_run _ _ _ _ _ _ Hoperations).
  rewrite bind_run, (add_unless_empty_run _ _ _ _ _ _ Hmeta).
  rewrite bind_run, (add_unless_empty_run _ _ _ _ _ _ Hclone).
  rewrite bind_run, (add_unless_empty_run _ _ _ _ _ _ Hpromotable).
  rewrite bind_run, (add_unless_empty_run _ _ _ _ _ _ Hgroup).
  rewrite bind_run, (add_if_true_run _ _ _ _ _ _ Hdisabled).
  rewrite bind_run, (add_if_true_run _ _ _ _ _ _ Hagent).
  fold (change_resource_tail py_repr run_command name).
  destruct (str_eqb operations ""), (str_eqb meta ""), (str_eqb clone ""),
    (str_eqb promotable ""), (str_eqb group ""), (truthy disabled),
    (truthy agent_validation);
    do 4 eexists; (split; [reflexivity|]); repeat split.
Qed.

(** The commands the end of the two functions adds: the command it was
    given, and a [pcs resource config] after it or not. *)
Lemma change_resource_tail_ran (name cmd : jval) (ran : list jval) :
  exists rest,
    (change_resource_tail py_repr run_command name cmd ran).2
    = ran ++ cmd :: rest.
Proof.
  unfold change_resource_tail. rewrite bind_run. unfold module_run_command.
  destruct (run_command ran cmd) as [[[rc out] err]|stopped];
    [|exists []; reflexivity].
  destruct (negb (rc =? 0)%Z); [exists []; reflexivity|].
  rewrite bind_run.
  destruct (get_resource_cases py_repr run_command name (ran ++ [cmd]))
    as [Hg|(s & [(stopped & Hr & Hg)|(rc' & out' & err' & Hr & Hg)])];
    rewrite Hg; simpl; rewrite <- ?app_assoc; eexists; reflexivity.
Qed.

Lemma resource_keys_present (d : gmap string jval) :
  Forall (fun key => is_Some (d !! key)) resource_keys ->
  exists standard provider type options operations meta clone promotable
         group disabled agent_validation,
    d !! "standard" = Some standard /\ d !! "provider" = Some provider
    /\ d !! "type" = Some type /\ d !! "resource_options" = Some options
    /\ d !! "operations" = Some operations /\ d !! "meta" = Some meta
    /\ d !! "clone" = Some clone /\ d !! "promotable" = Some promotable
    /\ d !! "group" = Some group /\ d !! "disabled" = Some disabled
    /\ d !! "agent_validation" = Some agent_validation.
Proof.
  unfold resource_keys. rewrite !Forall_cons.
  intros ([v1 H1] & [v2 H2] & [v3 H3] & [v4 H4] & [v5 H5] & [v6 H6]
          & [v7 H7] & [v8 H8] & [v9 H9] & [v10 H10] & [v11 H11] & _).
  exists v1, v2, v3, v4, v5, v6, v7, v8, v9, v10, v11. auto 12.
Qed.

End PcsChange.

(** X15. [update_resource] and [create_resource] never make the text of
    their command: for a resource with every key, what they hand to
    [run_command] is not a string but a tuple of a format and a tuple of
    arguments, at whose bottom lies the one string that was formatted,
    [pcs resource], the verb, the name and the three parts of the agent. *)
Theorem change_resource_hands_over_a_tuple :
  forall (py_repr : jval -> string)
         (run_command : list jval -> jval -> reply (Z * string * string))
         (verb : string) (name : jval) (d : gmap string jval)
         (ran : list jval) (standard provider type : jval),
    Forall (fun key => is_Some (d !! key)) resource_keys ->
    d !! "standard" = Some standard -> d !! "provider" = Some provider ->
    d !! "type" = Some type ->
    exists cmd rest fmt inner arg,
      (change_resource py_repr run_command verb name (JDict d) ran).2
      = ran ++ cmd :: rest
      /\ cmd = JTuple [JStr fmt; JTuple [inner; arg]]
      /\ innermost cmd
         = JStr ("pcs resource " +:+ verb +:+ " " +:+ py_str py_repr name
                 +:+ " " +:+ py_str py_repr standard +:+ ":"
                 +:+ py_str py_repr provider +:+ ":" +:+ py_str py_repr type).
Proof.
  intros py_repr run_command verb name d ran standard provider type
    Hkeys Hstandard Hprovider Htype.
  destruct (resource_keys_present d Hkeys)
    as (v1 & v2 & v3 & v4 & v5 & v6 & v7 & v8 & v9 & v10 & v11
        & H1 & H2 & H3 & H4 & H5 & H6 & H7 & H8 & H9 & H10 & H11).
  destruct (change_resource_command py_repr run_command verb name d ran
              _ _ _ _ _ _ _ _ _ _ _ H1 H2 H3 H4 H5 H6 H7 H8 H9 H10 H11)
    as (cmd & fmt & inner & arg & Hrun & Hcmd & Hinner & _).
  destruct (change_resource_tail_ran py_repr run_command name cmd ran)
    as [rest Hrest].
  exists cmd, rest, fmt, inner, arg. rewrite Hrun.
  split; [exact Hrest|]. split; [exact Hcmd|].
  rewrite Hinner. congruence.
Qed.

Lemma change_resource_hands_over_a_tuple_witness :
  exists cmd rest fmt inner arg,
    (change_resource sample_repr (answering 0 "" "") "create" (JStr "vip")
       (JDict sample_resource) []).2 = [] ++ cmd :: rest
    /\ cmd = JTuple [JStr fmt; JTuple [inner; arg]]
    /\ innermost cmd
       = JStr ("pcs resource " +:+ "create" +:+ " "
               +:+ py_str sample_repr (JStr "vip")
               +:+ " " +:+ py_str sample_repr (JStr "ocf") +:+ ":"
               +:+ py_str sample_repr (JStr "heartbeat") +:+ ":"
               +:+ py_str sample_repr (JStr "IPaddr2")).
Proof.
  apply (change_resource_hands_over_a_tuple sample_repr (answering 0 "" "")
           "create" (JStr "vip") sample_resource []
           (JStr "ocf") (JStr "heartbeat") (JStr "IPaddr2"));
    [|reflexivity..].
  unfold resource_keys. repeat (apply List.Forall_cons; [vm_compute; eauto|]).
  apply List.Forall_nil.
Defined.

Lemma str_eqb_false (v : jval) (text : string) :
  str_eqb v text = false <-> v <> JStr text.
Proof.
  rewrite <- str_eqb_true. destruct (str_eqb v text); split; congruence.
Qed.

Lemma elem_of_if_true {A : Type} (b : bool) (x y : A) :
  x ∈ (if b then [y] else []) <-> b = true /\ x = y.
Proof.
  destruct b; [rewrite list_elem_of_singleton|rewrite elem_of_nil];
    intuition congruence.
Qed.

Lemma elem_of_unless {A : Type} (b : bool) (x y : A) :
  x ∈ (if b then [] else [y]) <-> b = false /\ x = y.
Proof.
  destruct b; [rewrite elem_of_nil|rewrite list_elem_of_singleton];
    intuition congruence.
Qed.

(** X16. In the command of [update_resource] and [create_resource], each of
    the five options [operations], [meta], [clone], [promotable] and [group]
    is added, with its format, exactly when its value is not the empty
    string: an option that was not given, whose value is [None], is added
    like one that was. *)
Theorem option_added_unless_empty_string :
  forall (py_repr : jval -> string)
         (run_command : list jval -> jval -> reply (Z * string * string))
         (verb : string) (name : jval) (d : gmap string jval)
         (ran : list jval),
    Forall (fun key => is_Some (d !! key)) resource_keys ->
    exists cmd rest,
      (change_resource py_repr run_command verb name (JDict d) ran).2
      = ran ++ cmd :: rest
      /\ forall (key fmt : string) (v : jval),
          (key, fmt) ∈ optional_formats -> d !! key = Some v ->
          ((fmt, v) ∈ levels cmd <-> v <> JStr "").
Proof.
  intros py_repr run_command verb name d ran Hkeys.
  destruct (resource_keys_present d Hkeys)
    as (v1 & v2 & v3 & v4 & v5 & v6 & v7 & v8 & v9 & v10 & v11
        & H1 & H2 & H3 & H4 & H5 & H6 & H7 & H8 & H9 & H10 & H11).
  destruct (change_resource_command py_repr run_command verb name d ran
              _ _ _ _ _ _ _ _ _ _ _ H1 H2 H3 H4 H5 H6 H7 H8 H9 H10 H11)
    as (cmd & fmt0 & inner & arg & Hrun & _ & _ & Hlevels).
  destruct (change_resource_tail_ran py_repr run_command name cmd ran)
    as [rest Hrest].
  exists cmd, rest. rewrite Hrun. split; [exact Hrest|].
  intros key fmt v Hin Hv. rewrite Hlevels. clear Hlevels Hrun Hrest.
  rewrite !elem_of_app, !elem_of_if_true, !elem_of_unless,
    list_elem_of_singleton, !str_eqb_false.
  unfold optional_formats in Hin.
  rewrite !elem_of_cons, elem_of_nil in Hin.
  destruct Hin as [Hin|[Hin|[Hin|[Hin|[Hin|[]]]]]];
    injection Hin as -> ->;
    rewrite ?H5, ?H6, ?H7, ?H8, ?H9 in Hv; injection Hv as <-;
    intuition (try discriminate; try congruence).
Qed.

Lemma option_added_unless_empty_string_witness :
  exists cmd rest,
    (change_resource sample_repr (answering 0 "" "") "update" (JStr "vip")
       (JDict sample_resource) []).2 = [] ++ cmd :: rest
    /\ forall (key fmt : string) (v : jval),
        (key, fmt) ∈ optional_formats -> sample_resource !! key = Some v ->
        ((fmt, v) ∈ levels cmd <-> v <> JStr "").
Proof.
  apply (option_added_unless_empty_string sample_repr (answering 0 "" "")
           "update" (JStr "vip") sample_resource []).
  unfold resource_keys. repeat (apply List.Forall_cons; [vm_compute; eauto|]).
  apply List.Forall_nil.
Defined.

Section PcsKeys.

Variable py_repr : jval -> string.
Variable run_command : list jval -> jval -> reply (Z * string * string).

Lemma getitem_none (d : gmap string jval) (key : string) (ran : list jval) :
  d !! key = None ->
  getitem (JDict d) key ran = (Stop (Uncaught (KeyError key)), ran).
Proof. apply dict_getitem_none. Qed.

Lemma add_unless_empty_none (d : gmap string jval) (key fmt : string)
    (cmd : jval) (ran : list jval) :
  d !! key = None ->
  add_unless_empty (JDict d) key fmt cmd ran
  = (Stop (Uncaught (KeyError key)), ran).
Proof.
  intros H. unfold add_unless_empty.
  rewrite bind_run, (getitem_none _ _ _ H). reflexivity.
Qed.

Lemma add_if_true_none (d : gmap string jval) (key flag : string)
    (cmd : jval) (ran : list jval) :
  d !! key = None ->
  add_if_true (JDict d) key flag cmd ran
  = (Stop (Uncaught (KeyError key)), ran).
Proof.
  intros H. unfold add_if_true.
  rewrite bind_run, (getitem_none _ _ _ H). reflexivity.
Qed.

Ltac missing key H :=
  exists key; split; [unfold resource_keys; set_solver|];
  split; [exact H|]; reflexivity.

(** Either every key is there, or the first one that is not stops the
    function. *)
Lemma change_resource_keys (verb : string) (name : jval)
    (d : gmap string jval) (ran : list jval) :
  Forall (fun key => is_Some (d !! key)) resource_keys
  \/ exists key,
      key ∈ resource_keys /\ d !! key = None
      /\ change_resource py_repr run_command verb name (JDict d) ran
         = (Stop (Uncaught (KeyError key)), ran).
Proof.
  unfold change_resource.
  destruct (d !! "standard") as [v1|] eqn:H1;
    [|right; rewrite bind_run, (getitem_none _ _ _ H1);
      missing "standard" H1].
  rewrite bind_run, (getitem_some _ _ _ _ H1).
  destruct (d !! "provider") as [v2|] eqn:H2;
    [|right; rewrite bind_run, (getitem_none _ _ _ H2);
      missing "provider" H2].
  rewrite bind_run, (getitem_some _ _ _ _ H2).
  destruct (d !! "type") as [v3|] eqn:H3;
    [|right; rewrite bind_run, (getitem_none _ _ _ H3); missing "type" H3].
  rewrite bind_run, (getitem_some _ _ _ _ H3).
  destruct (d !! "resource_options") as [v4|] eqn:H4;
    [|right; rewrite bind_run, (getitem_none _ _ _ H4);
      missing "resource_options" H4].
  rewrite bind_run, (getitem_some _ _ _ _ H4).
  destruct (d !! "operations") as [v5|] eqn:H5;
    [|right; rewrite bind_run, (add_unless_empty_none _ _ _ _ _ H5);
      missing "operations" H5].
  rewrite bind_run, (add_unless_empty_run _ _ _ _ _ _ H5).
  destruct (d !! "meta") as [v6|] eqn:H6;
    [|right; rewrite bind_run, (add_unless_empty_none _ _ _ _ _ H6);
      missing "meta" H6].
  rewrite bind_run, (add_unless_empty_run _ _ _ _ _ _ H6).
  destruct (d !! "clone") as [v7|] eqn:H7;
    [|right; rewrite bind_run, (add_unless_empty_none _ _ _ _ _ H7);
      missing "clone" H7].
  rewrite bind_run, (add_unless_empty_run _ _ _ _ _ _ H7).
  destruct (d !! "promotable") as [v8|] eqn:H8;
    [|right; rewrite bind_run, (add_unless_empty_none _ _ _ _ _ H8);
      missing "promotable" H8].
  rewrite bind_run, (add_unless_empty_run _ _ _ _ _ _ H8).
  destruct (d !! "group") as [v9|] eqn:H9;
    [|right; rewrite bind_run, (add_unless_empty_none _ _ _ _ _ H9);
      missing "group" H9].
  rewrite bind_run, (add_unless_empty_run _ _ _ _ _ _ H9).
  destruct (d !! "disabled") as [v10|] eqn:H10;
    [|right; rewrite bind_run, (add_if_true_none _ _ _ _ _ H10);
      missing "disabled" H10].
  rewrite bind_run, (add_if_true_run _ _ _ _ _ _ H10).
  destruct (d !! "agent_validation") as [v11|] eqn:H11;
    [|right; rewrite bind_run, (add_if_true_none _ _ _ _ _ H11);
      missing "agent_validation" H11].
  left. unfold resource_keys.
  repeat (apply List.Forall_cons; [eauto|]). rewrite ?H1, ?H2, ?H3.
  repeat (apply List.Forall_cons; [eauto|]). apply List.Forall_nil.
Qed.

End PcsKeys.

(** X17. [update_resource] and [create_resource] need every one of the
    eleven keys in the resource they are given: when one is missing, the
    function ends in [KeyError] of a missing key, and no command is run. *)
Theorem change_resource_missing_key :
  forall (py_repr : jval -> string)
         (run_command : list jval -> jval -> reply (Z * string * string))
         (verb : string) (name : jval) (d : gmap string jval)
         (ran : list jval),
    Exists (fun key => d !! key = None) resource_keys ->
    exists key,
      key ∈ resource_keys /\ d !! key = None
      /\ change_resource py_repr run_command verb name (JDict d) ran
         = (Stop (Uncaught (KeyError key)), ran).
Proof.
  intros py_repr run_command verb name d ran Hmissing.
  destruct (change_resource_keys py_repr run_command verb name d ran)
    as [Hall|Hkey]; [|exact Hkey].
  exfalso. apply List.Exists_exists in Hmissing as (key & Hin & Hnone).
  rewrite List.Forall_forall in Hall. destruct (Hall key Hin) as [v Hv].
  congruence.
Qed.

Lemma change_resource_missing_key_witness :
  exists key,
    key ∈ resource_keys
    /\ ({[ "standard" := JStr "ocf"; "provider" := JStr "heartbeat";
           "type" := JStr "IPaddr2";
           "resource_options" := JStr "ip=172.31.40.87";
           "group" := JStr "webservergroup" ]} : gmap string jval) !! key
       = None
    /\ change_resource sample_repr (answering 0 "" "") "create"
         (JStr "floatingVIP")
         (JDict {[ "standard" := JStr "ocf"; "provider" := JStr "heartbeat";
                   "type" := JStr "IPaddr2";
                   "resource_options" := JStr "ip=172.31.40.87";
                   "group" := JStr "webservergroup" ]}) []
       = (Stop (Uncaught (KeyError key)), []).
Proof.
  apply (change_resource_missing_key sample_repr (answering 0 "" "")
           "create" (JStr "floatingVIP")).
  unfold resource_keys. do 4 apply List.Exists_cons_tl.
  apply List.Exists_cons_hd. reflexivity.
Defined.

(** ** The lines of the text *)

Section Lines.

Variable sep : ascii.

Lemma split_app (a b : string) :
  Str.split sep (a +:+ String sep b) = Str.split sep a ++ Str.split sep b.
Proof.
  induction a as [|c a IH]; simpl.
  - rewrite Ascii.eqb_refl. reflexivity.
  - destruct (Ascii.eqb c sep); rewrite IH; [reflexivity|].
    destruct (Str.split sep a) as [|p ps] eqn:E; [|reflexivity].
    exfalso. exact (split_not_nil sep a E).
Qed.



End Lines.

(** The body looks at the first line only; of the lines after it, it needs
    there to be one, and what the recursive call makes of them. *)
Lemma section_body_remainder (globals : gmap string pyval)
    (self : list string -> nat -> res pyval) (line : string)
    (remainder1 remainder2 : list string) (depth : nat) :
  remainder1 <> [] -> remainder2 <> [] ->
  (forall d, self remainder1 d = self remainder2 d) ->
  section_body globals self (line :: remainder1) depth
  = section_body globals self (line :: remainder2) depth.
Proof.
  intros Hne1 Hne2 Hself.
  destruct remainder1 as [|next1 rest1]; [congruence|].
  destruct remainder2 as [|next2 rest2]; [congruence|].
  unfold section_body.
  change (_count_indentation globals next2)
    with (_count_indentation globals next1).
  destruct (_count_indentation globals next1) as [nd|e]; simpl;
    [|reflexivity].
  destruct (py_assert _) as [[]|e]; simpl; [|reflexivity].
  destruct (split_name_value line) as [[name value]|e]; simpl;
    [|reflexivity].
  rewrite Hself. reflexivity.
Qed.

Lemma add_section_last_line (globals : gmap string pyval)
    (lines : list string) (last1 last2 : string) (depth : nat) :
  _add_ansibilized_section globals (lines ++ [last1]) depth
  = _add_ansibilized_section globals (lines ++ [last2]) depth.
Proof.
  revert depth. induction lines as [|line lines IH]; intros depth.
  - reflexivity.
  - rewrite <- !app_comm_cons, !add_section_unfold.
    apply section_body_remainder; [destruct lines; discriminate..|exact IH].
Qed.

(** X19. The parser never reads the last line of its text: two texts that
    differ in their last line only have the same result, under every
    namespace. *)
Theorem last_line_is_not_read :
  forall (globals : gmap string pyval) (text last1 last2 : string),
    Str.contains "010" last1 = false ->
    Str.contains "010" last2 = false ->
    ansibilize_resource globals (text +:+ String "010" last1)
    = ansibilize_resource globals (text +:+ String "010" last2).
Proof.
  intros globals text last1 last2 H1 H2. unfold ansibilize_resource.
  rewrite !split_app, (split_without_sep _ _ H1), (split_without_sep _ _ H2).
  apply add_section_last_line.
Qed.

Lemma last_line_is_not_read_witness :
  ansibilize_resource (globals_with_s "") ("a:b:c" +:+ String "010" "x:y")
  = ansibilize_resource (globals_with_s "") ("a:b:c" +:+ String "010" "").
Proof.
  apply (last_line_is_not_read (globals_with_s "") "a:b:c" "x:y" "");
    reflexivity.
Defined.

